(** * docker-captain: a shallow embedding of the command layer, the config
    store and the compose runner, with the properties of its specification.

    The development follows the three source files:
    - [config.py]  : [CaptainFile] (generic [load]/[save]) and the two
                     dataclasses [CaptainConfig] and [CaptainData];
    - [docker.py]  : [DockerCompose] ([get_running_projects], [up], [down],
                     [restart], [_docker_compose_run]);
    - [main.py]    : module initialisation, [discover_projects],
                     [_require_project_exists] and the commands.

    Python values are untyped at run time, so record fields hold [pyval]s.
    Effects (console, file system, external processes, the prompt) are
    threaded through a state-and-exception monad [M]. *)

From stdpp Require Import gmap strings list fin_maps sorting.
From Stdlib Require Import ZArith Ascii OrderedTypeEx.

Set Warnings "-register-all".
Local Open Scope Z_scope.

(* ===================================================================== *)
(** * Strings: order, case, prefixes                                      *)
(* ===================================================================== *)

(** Python compares [str] by code point; on UTF-8 text this is the byte
    order, which is what [String.leb] and [String.ltb] compute. *)
Definition str_le (a b : string) : Prop := String.leb a b = true.
Definition str_lt (a b : string) : Prop := String.ltb a b = true.

#[global] Instance str_le_dec : RelDecision str_le.
Proof. intros a b. unfold str_le. apply _. Defined.

#[global] Instance str_lt_dec : RelDecision str_lt.
Proof. intros a b. unfold str_lt. apply _. Defined.

(** [sorted(xs)] on a list of [str]. *)
Definition sorted (l : list string) : list string := merge_sort str_le l.

(** [str.lower] and [str.upper] on the ASCII letters (bytes above 127 are
    left as they are). *)
Definition lower_ascii (c : ascii) : ascii :=
  let n := nat_of_ascii c in
  if bool_decide (65 ≤ n ≤ 90)%nat then ascii_of_nat (n + 32) else c.

Definition upper_ascii (c : ascii) : ascii :=
  let n := nat_of_ascii c in
  if bool_decide (97 ≤ n ≤ 122)%nat then ascii_of_nat (n - 32) else c.

Fixpoint str_map (f : ascii → ascii) (s : string) : string :=
  match s with
  | EmptyString => EmptyString
  | String c s' => String (f c) (str_map f s')
  end.

Definition lower : string → string := str_map lower_ascii.
Definition upper : string → string := str_map upper_ascii.

(** [s.startswith(p)]. *)
Definition startswith (s p : string) : bool := String.prefix p s.

(** [a in b] on two [str]: [a] occurs in [b]. *)
Fixpoint is_substring (a b : string) : bool :=
  String.prefix a b ||
  match b with
  | EmptyString => false
  | String _ b' => is_substring a b'
  end.

(** The characters of a [str], each as a [str] of length one. *)
Fixpoint chars (s : string) : list string :=
  match s with
  | EmptyString => []
  | String c s' => String c EmptyString :: chars s'
  end.

(* ===================================================================== *)
(** * Python values                                                       *)
(* ===================================================================== *)

(** A [pathlib.Path], already absolute: the components below the file
    system root. *)
Abbreviation Path := (list string).

(** [child / fname], [path.name], [path.parent]. *)
Definition joinpath (p : Path) (fname : string) : Path := p ++ [fname].
Definition path_name (p : Path) : string := default ""%string (last p).
Definition path_parent (p : Path) : Path := removelast p.

(** The values the program handles.  Floats do not occur in it.  A [dict]
    is ordered by insertion, its keys (always [str] here) are distinct in
    every dict Python builds, and a lookup takes the first binding. *)
Inductive pyval :=
| PNone
| PBool (b : bool)
| PInt (z : Z)
| PStr (s : string)
| PPath (p : Path)
| PList (l : list pyval)
| PDict (d : list (string * pyval)).

Fixpoint dict_get {V} (d : list (string * V)) (k : string) : option V :=
  match d with
  | [] => None
  | (k', v) :: d' => if decide (k' = k) then Some v else dict_get d' k
  end.

(** [d[k] = v]: a key already bound keeps its place. *)
Fixpoint dict_set {V} (d : list (string * V)) (k : string) (v : V)
  : list (string * V) :=
  match d with
  | [] => [(k, v)]
  | (k', v') :: d' =>
      if decide (k' = k) then (k, v) :: d' else (k', v') :: dict_set d' k v
  end.

(** Truth value of an object, as [not x], [x or y] and [if x] test it. *)
Definition truthy (v : pyval) : bool :=
  match v with
  | PNone => false
  | PBool b => b
  | PInt z => negb (z =? 0)
  | PStr s => negb (String.eqb s "")
  | PPath _ => true
  | PList l => match l with [] => false | _ :: _ => true end
  | PDict d => match d with [] => false | _ :: _ => true end
  end.

(** [x or y]. *)
Definition py_or (x y : pyval) : pyval := if truthy x then x else y.

(** [x or y] on two [int]s. *)
Definition int_or (x y : Z) : Z := if x =? 0 then y else x.

(* ===================================================================== *)
(** * Exceptions and results                                              *)
(* ===================================================================== *)

(** The exceptions the program can meet.  [Exit] is [typer.Exit] and
    [SystemExit] is what the builtin [exit] raises: with either the process
    ends with that status.  [ErrorReturnCode] is [sh.ErrorReturnCode];
    every other failure to run the external tool is a [CommandError]. *)
Inductive exn :=
| Exit (code : Z)
| SystemExit (code : Z)
| AttributeError (what : string)
| TypeError (what : string)
| KeyError (key : string)
| OSError (what : string)
| YAMLError (what : string)
| JSONDecodeError (what : string)
| ErrorReturnCode (exit_code : Z)
| CommandError (what : string).

Inductive result (A : Type) :=
| Ok (a : A)
| Raise (e : exn).
Arguments Ok {A} a.
Arguments Raise {A} e.

#[global] Instance result_ret : MRet result := λ A a, Ok a.
#[global] Instance result_bind : MBind result := λ A B f r,
  match r with
  | Ok a => f a
  | Raise e => Raise e
  end.

(** The status the process ends with: 0 after a normal return, the code of
    an [Exit], and 1 when any other exception reaches the top level. *)
Definition exit_status {A} (r : result A) : Z :=
  match r with
  | Ok _ => 0
  | Raise (Exit code) | Raise (SystemExit code) => code
  | Raise _ => 1
  end.

(* ===================================================================== *)
(** * The file system                                                     *)
(* ===================================================================== *)

(** What a text file holds, as its parser sees it: [Doc v] is a text that
    [yaml.safe_load] (for the two store files) or [json.loads] (for the
    output of the external tool) reads as [v], the empty file being
    [Doc PNone]; [Corrupt] is a text on which the parser raises.  The
    parsers themselves are libraries outside the program. *)
Inductive content :=
| Doc (v : pyval)
| Corrupt.

(** A directory maps the names of its entries to nodes; symbolic links are
    taken as resolved. *)
Inductive node :=
| File (c : content)
| Dir (entries : gmap string node).

Fixpoint resolve (n : node) (p : Path) : option node :=
  match p with
  | [] => Some n
  | c :: p' =>
      match n with
      | Dir entries =>
          match entries !! c with
          | Some n' => resolve n' p'
          | None => None
          end
      | File _ => None
      end
  end.

(** [path.exists()], [path.is_dir()], [path.is_file()]. *)
Definition path_exists (fs : node) (p : Path) : bool :=
  match resolve fs p with Some _ => true | None => false end.
Definition is_dir (fs : node) (p : Path) : bool :=
  match resolve fs p with Some (Dir _) => true | _ => false end.
Definition is_file (fs : node) (p : Path) : bool :=
  match resolve fs p with Some (File _) => true | _ => false end.

(** [path.iterdir()], in the arbitrary order the system lists entries. *)
Definition iterdir (fs : node) (p : Path) : result (list Path) :=
  match resolve fs p with
  | Some (Dir entries) => Ok (joinpath p <$> (map_to_list entries).*1)
  | Some (File _) => Raise (OSError "not a directory")
  | None => Raise (OSError "no such file or directory")
  end.

(** [Path]s compare as the lists of their components do. *)
Fixpoint path_leb (p q : Path) : bool :=
  match p, q with
  | [], _ => true
  | _ :: _, [] => false
  | a :: p', b :: q' => if decide (a = b) then path_leb p' q' else String.leb a b
  end.

Definition path_le (p q : Path) : Prop := path_leb p q = true.

#[global] Instance path_le_dec : RelDecision path_le.
Proof. intros p q. unfold path_le. apply _. Defined.

(** [sorted(paths)] on a list of [Path]s. *)
Definition sorted_paths (l : list Path) : list Path := merge_sort path_le l.

(** [path.mkdir(parents=True, exist_ok=True)]. *)
Fixpoint mkdir_p (n : node) (p : Path) : result node :=
  match n, p with
  | Dir _, [] => Ok n
  | File _, [] => Raise (OSError "file exists")
  | File _, _ :: _ => Raise (OSError "not a directory")
  | Dir entries, c :: p' =>
      n' ← mkdir_p (default (Dir ∅) (entries !! c)) p';
      Ok (Dir (<[c := n']> entries))
  end.

(** Opening [path] for writing and leaving it with content [c]. *)
Fixpoint write_file (n : node) (p : Path) (c : content) : result node :=
  match n, p with
  | File _, [] => Ok (File c)
  | Dir _, [] => Raise (OSError "is a directory")
  | File _, _ :: _ => Raise (OSError "not a directory")
  | Dir entries, x :: p' =>
      match entries !! x, p' with
      | Some n', _ =>
          n'' ← write_file n' p' c; Ok (Dir (<[x := n'']> entries))
      | None, [] => Ok (Dir (<[x := File c]> entries))
      | None, _ :: _ => Raise (OSError "no such file or directory")
      end
  end.

(* ===================================================================== *)
(** * main.py: project discovery                                          *)
(* ===================================================================== *)

Definition COMPOSE_FILENAMES : list string :=
  ["compose.yaml"; "compose.yml"; "docker-compose.yaml"; "docker-compose.yml"]%string.

(** The inner loop of [discover_projects]: the first candidate that exists
    and is a regular file, at which the loop breaks. *)
Definition first_compose_file (fs : node) (child : Path) : option Path :=
  List.find (λ candidate, path_exists fs candidate && is_file fs candidate)
            (joinpath child <$> COMPOSE_FILENAMES).

(** The outer loop, over the sorted children, filling the dict. *)
Fixpoint scan_children (fs : node) (children : list Path)
    (projects : list (string * Path)) : list (string * Path) :=
  match children with
  | [] => projects
  | child :: rest =>
      if negb (is_dir fs child) then scan_children fs rest projects
      else
        match first_compose_file fs child with
        | Some candidate =>
            scan_children fs rest (dict_set projects (path_name child) candidate)
        | None => scan_children fs rest projects
        end
  end.

Definition discover_projects (fs : node) (root : Path)
  : result (list (string * Path)) :=
  if negb (path_exists fs root) then Ok []
  else
    children ← iterdir fs root;
    Ok (scan_children fs (sorted_paths children) []).

(* ===================================================================== *)
(** * The world: console, file system, external processes, the prompt     *)
(* ===================================================================== *)

(** An f-string: literal pieces and interpolated values, kept apart so
    that no [str()] conversion has to be modelled. *)
Inductive fragment :=
| Lit (s : string)
| Val (v : pyval)
| Err (e : exn).

Abbreviation message := (list fragment).

(** A call of an [sh.Command]: positional arguments and keyword arguments,
    the special ones ([_fg], [_ok_code]) included. *)
Record invocation := Invocation {
  args : list string;
  kwargs : list (string * pyval)
}.

(** How the external tool ends: it could not be run at all, or it ran and
    left an exit code and what it wrote to its standard output. *)
Inductive launch :=
| CannotRun (what : string)
| Exited (code : Z) (stdout : content).

(** One entry of a [questionary.checkbox]. *)
Record Choice := {
  title : string;
  value : string;
  checked : bool
}.

(** What the program does to the outside, in order. *)
Inductive event :=
| Print (msg : message)
| Rule (msg : message)
| PrintTable (title : message) (columns : list string) (rows : list (list message))
| Open (p : Path) (mode : string)
| Exec (inv : invocation)
| Ask (prompt : string) (choices : list Choice).

Record World := {
  fs : node;
  events : list event
}.

(** Computations that read and change the world and may raise. *)
Definition M (A : Type) : Type := World → result A * World.

#[global] Instance M_ret : MRet M := λ A a w, (Ok a, w).
#[global] Instance M_bind : MBind M := λ A B f m w,
  match m w with
  | (Ok a, w') => f a w'
  | (Raise e, w') => (Raise e, w')
  end.

Definition raise {A} (e : exn) : M A := λ w, (Raise e, w).

Definition lift {A} (r : result A) : M A := λ w, (r, w).

(** [try: body except Exception as e: handler e]; a [SystemExit] is not an
    [Exception] and passes through. *)
Definition try_except {A} (body : M A) (handler : exn → M A) : M A := λ w,
  match body w with
  | (Ok a, w') => (Ok a, w')
  | (Raise (SystemExit code), w') => (Raise (SystemExit code), w')
  | (Raise e, w') => handler e w'
  end.

Definition get_fs : M node := λ w, (Ok (fs w), w).
Definition set_fs (n : node) : M unit := λ w,
  (Ok tt, {| fs := n; events := events w |}).
Definition emit (e : event) : M unit := λ w,
  (Ok tt, {| fs := fs w; events := events w ++ [e] |}).

Definition console_print (msg : message) : M unit := emit (Print msg).
Definition console_rule (msg : message) : M unit := emit (Rule msg).

(** A call [f(k1=..., k2=..., **kwargs)]: when [kwargs] holds one of the
    keywords the call names itself, Python raises a [TypeError] at the
    call, before [f] is entered. *)
Fixpoint pass_kwargs (named : list string) (kw : list (string * pyval))
  : result unit :=
  match named with
  | [] => Ok tt
  | k :: rest =>
      match dict_get kw k with
      | Some _ => Raise (TypeError ("got multiple values for keyword argument " +:+ k))
      | None => pass_kwargs rest kw
      end
  end.

(** The exit codes [sh] accepts for a call: [_ok_code], by default 0. *)
Definition ok_codes (kw : list (string * pyval)) : list Z :=
  match dict_get kw "_ok_code" with
  | Some (PList l) =>
      omap (λ v, match v with PInt z => Some z | _ => None end) l
  | _ => [0]
  end.

(* ===================================================================== *)
(** * Operations on untyped values                                        *)
(* ===================================================================== *)

(** [for x in v]: the elements [v] yields. *)
Definition py_iter (v : pyval) : result (list pyval) :=
  match v with
  | PList l => Ok l
  | PStr s => Ok (PStr <$> chars s)
  | PDict d => Ok (PStr <$> d.*1)
  | _ => Raise (TypeError "object is not iterable")
  end.

Definition is_str (name : string) (v : pyval) : bool :=
  match v with
  | PStr s => bool_decide (s = name)
  | _ => false
  end.

(** [name in v] for a [str] [name]. *)
Definition py_contains (v : pyval) (name : string) : result bool :=
  match v with
  | PList l => Ok (existsb (is_str name) l)
  | PStr s => Ok (is_substring name s)
  | PDict d => Ok (bool_decide (is_Some (dict_get d name)))
  | _ => Raise (TypeError "argument is not iterable")
  end.

(** [item.get(key, dflt)]. *)
Definition py_get (item : pyval) (key : string) (dflt : pyval) : result pyval :=
  match item with
  | PDict d => Ok (default dflt (dict_get d key))
  | _ => Raise (AttributeError "get")
  end.

(** [data.items()]. *)
Definition py_items (data : pyval) : result (list (string * pyval)) :=
  match data with
  | PDict d => Ok d
  | _ => Raise (AttributeError "items")
  end.

(** [v[key]] for a [str] key. *)
Definition py_getitem (v : pyval) (key : string) : result pyval :=
  match v with
  | PDict d =>
      match dict_get d key with
      | Some x => Ok x
      | None => Raise (KeyError key)
      end
  | _ => Raise (TypeError "object is not subscriptable")
  end.

(** [v.lower()]. *)
Definition py_lower (v : pyval) : result string :=
  match v with
  | PStr s => Ok (lower s)
  | _ => Raise (AttributeError "lower")
  end.

(** [name in projects] and [projects[name]] for the dict of discovered
    projects: the compose file of [name], if it is a key. *)
Definition projects_lookup (projects : list (string * Path)) (name : pyval)
  : result (option Path) :=
  match name with
  | PStr s => Ok (dict_get projects s)
  | PList _ | PDict _ => Raise (TypeError "unhashable type")
  | _ => Ok None
  end.

(** What [yaml.safe_dump] can represent: no [Path] object, at any depth. *)
Fixpoint representable (v : pyval) : bool :=
  match v with
  | PPath _ => false
  | PList l => forallb representable l
  | PDict d => forallb (λ kv, representable kv.2) d
  | _ => true
  end.

(* ===================================================================== *)
(** * config.py: the store                                                *)
(* ===================================================================== *)

(** What [load] and [save] use of the class they are called on: the names
    its body binds to values, its dataclass fields, its constructor and
    [dataclasses.asdict]. *)
Record dataclass (T : Type) := {
  is_dataclass : bool;
  DEFAULT_PATH : Path;
  class_vars : list (string * pyval);
  fields : list string;
  init : list (string * pyval) → T;
  asdict : T → list (string * pyval)
}.
Arguments is_dataclass {T} _.
Arguments DEFAULT_PATH {T} _.
Arguments class_vars {T} _.
Arguments fields {T} _.
Arguments init {T} _ _.
Arguments asdict {T} _ _.

Record CaptainConfig := {
  theme : pyval;
  auto_update : pyval;
  recent_files : pyval
}.

Record CaptainData := {
  active_projects : pyval
}.

Section Store.

(** [user_config_dir(appname="docker-captain", appauthor=False)] and
    [user_data_dir(...)], which the platform decides. *)
Context (user_config_dir user_data_dir : Path).

(** [CaptainConfig]: three fields.  [theme] and [auto_update] have plain
    defaults, which stay bound in the class; [recent_files] has a
    [default_factory] and is not bound in the class. *)
Definition CaptainConfig_cls : dataclass CaptainConfig := {|
  is_dataclass := true;
  DEFAULT_PATH := joinpath user_config_dir "config.yaml";
  class_vars := [("DEFAULT_PATH", PPath (joinpath user_config_dir "config.yaml"));
                 ("theme", PStr "light");
                 ("auto_update", PBool true)]%string;
  fields := ["theme"; "auto_update"; "recent_files"]%string;
  init := λ kw,
    {| theme := default (PStr "light") (dict_get kw "theme");
       auto_update := default (PBool true) (dict_get kw "auto_update");
       recent_files := default (PList []) (dict_get kw "recent_files") |};
  asdict := λ self,
    [("theme", theme self);
     ("auto_update", auto_update self);
     ("recent_files", recent_files self)]%string
|}.

Definition CaptainData_cls : dataclass CaptainData := {|
  is_dataclass := true;
  DEFAULT_PATH := joinpath user_data_dir "data.yaml";
  class_vars := [("DEFAULT_PATH", PPath (joinpath user_data_dir "data.yaml"))]%string;
  fields := ["active_projects"]%string;
  init := λ kw,
    {| active_projects := default (PList []) (dict_get kw "active_projects") |};
  asdict := λ self, [("active_projects", active_projects self)]%string
|}.

End Store.

(** [cls.name] on the class, and [self.name] on an instance. *)
Definition class_getattr {T} (cls : dataclass T) (name : string) : result pyval :=
  match dict_get (class_vars cls) name with
  | Some v => Ok v
  | None => Raise (AttributeError name)
  end.

Definition instance_getattr {T} (cls : dataclass T) (self : T) (name : string)
  : result pyval :=
  match dict_get (asdict cls self) name with
  | Some v => Ok v
  | None => class_getattr cls name
  end.

(** The base class [CaptainFile]: its methods take the class they are
    called on as their first argument. *)
Module CaptainFile.

Definition _ensure_dataclass {T} (cls : dataclass T) : M unit :=
  if is_dataclass cls then mret tt
  else raise (TypeError "must be a dataclass").

(** [with path.open("r") as f: yaml.safe_load(f)]. *)
Definition read_yaml (path : Path) : M pyval :=
  emit (Open path "r");;
  n ← get_fs;
  match resolve n path with
  | Some (File (Doc v)) => mret v
  | Some (File Corrupt) => raise (YAMLError "cannot parse")
  | Some (Dir _) => raise (OSError "is a directory")
  | None => raise (OSError "no such file or directory")
  end.

(** [CaptainFile.load]. *)
Definition load {T} (cls : dataclass T) (path : option Path) : M T :=
  _ensure_dataclass cls;;
  let path := default (DEFAULT_PATH cls) path in
  n ← get_fs;
  if negb (path_exists n path) then mret (init cls [])
  else
    parsed ← try_except
      (loaded ← read_yaml path;
       mret (inl (py_or loaded (PDict []))))
      (λ e,
        console_print [Lit "[yellow]Warning: Failed to parse "; Val (PPath path);
                       Lit ": "; Err e; Lit "[/yellow]"];;
        mret (inr (init cls [])));
    match parsed with
    | inr fresh => mret fresh
    | inl data =>
        items ← lift (py_items data);
        let filtered := filter (λ kv, kv.1 ∈ fields cls) items in
        mret (init cls filtered)
    end.

(** [path.parent.mkdir(parents=True, exist_ok=True)]. *)
Definition mkdir (p : Path) : M unit :=
  n ← get_fs;
  n' ← lift (mkdir_p n p);
  set_fs n'.

(** [path.open("w")] leaves an empty file; [yaml.safe_dump(v, f)] then
    either fills it with a document that reads back as [v], or raises
    before writing anything when [v] holds an object it cannot represent.
    (The order in which the document lists the keys of a mapping is not
    tracked: the loader looks fields up by name.) *)
Definition open_w (path : Path) : M unit :=
  emit (Open path "w");;
  n ← get_fs;
  n' ← lift (write_file n path (Doc PNone));
  set_fs n'.

Definition yaml_safe_dump (v : pyval) (path : Path) : M unit :=
  if representable v then
    n ← get_fs;
    n' ← lift (write_file n path (Doc v));
    set_fs n'
  else raise (YAMLError "cannot represent an object").

(** [CaptainFile.save]. *)
Definition save {T} (cls : dataclass T) (self : T) (path : option Path) : M unit :=
  _ensure_dataclass cls;;
  let path := default (DEFAULT_PATH cls) path in
  mkdir (path_parent path);;
  try_except
    (open_w path;;
     yaml_safe_dump (PDict (asdict cls self)) path)
    (λ e,
      console_print [Lit "[yellow]Warning: Failed to write "; Val (PPath path);
                     Lit ": "; Err e; Lit "[/yellow]"]).

End CaptainFile.

(* ===================================================================== *)
(** * docker.py: the compose runner                                       *)
(* ===================================================================== *)

(** The module body: [sh.Command("docker", "compose")] with its handler;
    [docker_found] tells whether the lookup of the tool succeeds. *)
Definition docker_init (docker_found : bool) : M unit :=
  if docker_found then mret tt
  else
    console_print [Lit "[red]Error: '"; Err (CommandError "docker");
                   Lit "' not found.[/red]"];;
    raise (SystemExit 1).

Module DockerCompose.
Section Runner.

(** How the external tool behaves when it is called, given what the
    program did before. *)
Context (docker : list event → invocation → launch).

(** Calling the command: [sh] returns what the tool printed when the
    exit code is an accepted one and raises [ErrorReturnCode] otherwise;
    anything that keeps the tool from running is another exception. *)
Definition sh_call (inv : invocation) : M content := λ w,
  let w' := {| fs := fs w; events := events w ++ [Exec inv] |} in
  match docker (events w) inv with
  | CannotRun what => (Raise (CommandError what), w')
  | Exited code stdout =>
      if bool_decide (code ∈ ok_codes (kwargs inv)) then (Ok stdout, w')
      else (Raise (ErrorReturnCode code), w')
  end.

(** [json.loads(str(result))]. *)
Definition json_loads (stdout : content) : result pyval :=
  match stdout with
  | Doc v => Ok v
  | Corrupt => Raise (JSONDecodeError "cannot parse")
  end.

(** The loop of [get_running_projects] over the parsed items. *)
Fixpoint collect_running (items : list pyval) (running : list pyval)
  : result (list pyval) :=
  match items with
  | [] => Ok running
  | item :: rest =>
      name ← py_get item "Name" PNone;
      if truthy name then
        status ← py_get item "Status" (PStr "");
        lowered ← py_lower status;
        if startswith lowered "running"
        then collect_running rest (running ++ [name])
        else collect_running rest running
      else collect_running rest running
  end.

Definition get_running_projects : M (list pyval) :=
  try_except
    (result ← sh_call (Invocation ["ls"%string]
                         [("format", PStr "json");
                          ("_ok_code", PList [PInt 0; PInt 1])]%string);
     data ← lift (json_loads result);
     items ← lift (py_iter data);
     lift (collect_running items []))
    (λ e,
      console_print [Lit "[yellow]Warning: could not determine running projects (";
                     Err e; Lit ")[/yellow]"];;
      mret []).

(** [kw] is [**kwargs]: the call of the tool on line 111 names [file]
    and [_fg] next to it, inside the [try] block. *)
Definition _docker_compose_run (compose_file : Path) (action : string)
    (kw : list (string * pyval)) : M Z :=
  console_rule [Lit "[bold blue]"; Lit (upper action); Lit " ";
                Lit (path_name (path_parent compose_file)); Lit "[/bold blue]"];;
  try_except
    (lift (pass_kwargs ["file"; "_fg"]%string kw);;
     sh_call (Invocation [action]
                ([("file", PPath compose_file); ("_fg", PBool true)]%string ++ kw));;
     console_print [Lit ":white_check_mark: [green]"; Lit action;
                    Lit " succeeded for ";
                    Lit (path_name (path_parent compose_file)); Lit "[/green]"];;
     mret 0)
    (λ e,
      match e with
      | ErrorReturnCode exit_code =>
          console_print [Lit "[red]Command failed with exit code ";
                         Val (PInt exit_code); Lit "[/red]"];;
          mret exit_code
      | _ =>
          console_print [Lit "[red]Error executing docker compose: "; Err e;
                         Lit "[/red]"];;
          mret 1
      end).

(** [up], [down] and [restart]: [kw] is [**kwargs], which each of them
    passes on in a call that names [compose_file] and [action] itself. *)
Definition up (compose_file : Path) (kw : list (string * pyval)) : M Z :=
  lift (pass_kwargs ["compose_file"; "action"]%string kw);;
  _docker_compose_run compose_file "up" kw.

Definition down (compose_file : Path) (kw : list (string * pyval)) : M Z :=
  lift (pass_kwargs ["compose_file"; "action"]%string kw);;
  _docker_compose_run compose_file "down" kw.

Definition restart (compose_file : Path) (kw : list (string * pyval)) : M Z :=
  lift (pass_kwargs ["compose_file"; "action"]%string kw);;
  _docker_compose_run compose_file "restart" kw.

End Runner.
End DockerCompose.


(* ===================================================================== *)
(** * main.py: start-up and the commands                                  *)
(* ===================================================================== *)

Section Main.

(** The platform: the two store directories, the environment variables,
    and [Path(text).absolute()], which depends on the working directory. *)
Context (user_config_dir user_data_dir : Path).
Context (environ : gmap string string).
Context (Path_absolute : string → Path).

(** The external tool, and the person at the terminal: shown the choices
    of the checkbox, they either abort ([None]) or confirm with some of
    the entries ticked. *)
Context (docker : list event → invocation → launch).
Context (operator : list Choice → option (string → bool)).

Local Abbreviation ConfigClass := (CaptainConfig_cls user_config_dir).
Local Abbreviation DataClass := (CaptainData_cls user_data_dir).

(** [os.getenv(name)]. *)
Definition os_getenv (name : pyval) : result pyval :=
  match name with
  | PStr s =>
      match environ !! s with
      | Some v => Ok (PStr v)
      | None => Ok PNone
      end
  | _ => Raise (TypeError "str expected")
  end.

(** [Path(v).absolute()]. *)
Definition to_absolute (v : pyval) : result Path :=
  match v with
  | PStr s => Ok (Path_absolute s)
  | PPath p => Ok p
  | _ => Raise (TypeError "expected str or os.PathLike object")
  end.

(** Lines 36 to 50 of the module body: the checks on the folder found,
    [env_name] being the variable name shown in the first message. *)
Definition startup_checks (env_name folder : pyval) : M Path :=
  if negb (truthy folder) then
    console_print
      [Lit "[bold red]Error:[/bold red] Please set the path containing your Docker Compose projects.";
       Lit "Either add it to the "; Val (PPath (DEFAULT_PATH ConfigClass));
       Lit " file, or set with: export "; Val env_name;
       Lit "=/path/to/your/deployments"];;
    raise (SystemExit 1)
  else
    folder ← lift (to_absolute folder);
    n ← get_fs;
    if negb (path_exists n folder) then
      console_print
        [Lit "[bold red]Error:[/bold red] The configured projects folder ";
         Val (PPath folder); Lit " does not exist."];;
      raise (SystemExit 2)
    else
      CaptainFile.mkdir folder;;
      mret folder.

(** Lines 32 to 50: the value of [DOCKER_CAPTAIN_PROJECTS_FOLDER]. *)
Definition main_init : M Path :=
  captain_config ← CaptainFile.load ConfigClass None;
  ENVIROMENT ← lift (class_getattr ConfigClass "ENVIROMENT");
  env_name ← lift (py_getitem ENVIROMENT "projects_folder");
  from_env ← lift (os_getenv env_name);
  folder ← (if truthy from_env then mret from_env
            else lift (instance_getattr ConfigClass captain_config "projects_folder"));
  startup_checks env_name folder.

(** Importing [main]: [docker.py] is imported first. *)
Definition startup (docker_found : bool) : M Path :=
  docker_init docker_found;;
  main_init.

(** The projects folder the commands work on. *)
Context (DOCKER_CAPTAIN_PROJECTS_FOLDER : Path).

Definition discover : M (list (string * Path)) :=
  n ← get_fs;
  lift (discover_projects n DOCKER_CAPTAIN_PROJECTS_FOLDER).

Definition _require_project_exists (project : string)
    (projects : list (string * Path)) : M Path :=
  match dict_get projects project with
  | None =>
      console_print [Lit "[red]No such project: "; Lit project; Lit "[/red]"];;
      raise (Exit 2)
  | Some compose_file => mret compose_file
  end.

Definition tick (b : bool) : message := [Lit (if b then "✓" else "")].

(** The command [list]. *)
Definition list_ (verbose : bool) : M unit :=
  projects ← discover;
  captain_data ← CaptainFile.load DataClass None;
  running_projects ← DockerCompose.get_running_projects docker;
  let columns := ["Project"; "Active"; "Running"]%string
                 ++ (if verbose then ["Compose File"%string] else []) in
  rows ← lift (mapM (λ item : string * Path,
            active ← py_contains (active_projects captain_data) item.1;
            let running := existsb (is_str item.1) running_projects in
            Ok ([[Lit item.1]; tick active; tick running]
                ++ if verbose then [[Val (PPath item.2)]] else []))
          projects);
  emit (PrintTable [Lit "Projects in "; Val (PPath DOCKER_CAPTAIN_PROJECTS_FOLDER)]
                   columns rows).

(** [questionary.checkbox(prompt, choices).ask()]: the values of the
    entries left ticked, or [None] when the prompt is aborted. *)
Definition checkbox_ask (prompt : string) (choices : list Choice)
  : M (option (list string)) :=
  emit (Ask prompt choices);;
  mret (match operator choices with
        | None => None
        | Some ticked => Some (value <$> filter (λ c, ticked (value c) = true) choices)
        end).

(** The command [manage]. *)
Definition manage : M unit :=
  projects ← discover;
  let names := sorted projects.*1 in
  captain_data ← CaptainFile.load DataClass None;
  match names with
  | [] =>
      console_print [Lit "[yellow]No projects found in ";
                     Val (PPath DOCKER_CAPTAIN_PROJECTS_FOLDER); Lit ".[/yellow]"];;
      raise (Exit 1)
  | _ :: _ =>
      choices ← lift (mapM (λ n,
                   is_active ← py_contains (active_projects captain_data) n;
                   Ok {| title := n; value := n; checked := is_active |})
                 names);
      answer ← checkbox_ask "Select active projects (space to toggle, enter to confirm):"
                            choices;
      match answer with
      | None =>
          console_print [Lit "[yellow]Aborted (no changes made).[/yellow]"];;
          raise (Exit 0)
      | Some answer =>
          let captain_data := {| active_projects := PList (PStr <$> sorted answer) |} in
          CaptainFile.save DataClass captain_data None;;
          console_print [Lit "[green]Saved "; Val (PInt (Z.of_nat (length (sorted answer))));
                         Lit " active project(s) to ";
                         Val (PPath (DEFAULT_PATH DataClass)); Lit "[/green]"]
      end
  end.

(** The commands [start], [stop] and [restart]. *)
Definition start (project : string) (detach remove_orphans : bool) : M unit :=
  projects ← discover;
  compose_file ← _require_project_exists project projects;
  rc ← DockerCompose.up docker compose_file
         [("detach", PBool detach); ("remove_orphans", PBool remove_orphans)]%string;
  raise (Exit rc).

Definition stop (project : string) (remove_orphans : bool) : M unit :=
  projects ← discover;
  compose_file ← _require_project_exists project projects;
  rc ← DockerCompose.down docker compose_file
         [("remove_orphans", PBool remove_orphans)]%string;
  raise (Exit rc).

Definition restart (project : string) : M unit :=
  projects ← discover;
  compose_file ← _require_project_exists project projects;
  rc ← DockerCompose.restart docker compose_file [];
  raise (Exit rc).

(** The loop of [rally] and of [abandon], which differ in the call of the
    runner only: [run] is that call. *)
Fixpoint for_each_active (run : Path → M Z) (projects : list (string * Path))
    (names : list pyval) (exit_code : Z) : M Z :=
  match names with
  | [] => mret exit_code
  | name :: rest =>
      found ← lift (projects_lookup projects name);
      match found with
      | None =>
          console_print [Lit "[red]Skipping "; Val name;
                         Lit ": project not found.[/red]"];;
          for_each_active run projects rest (int_or exit_code 1)
      | Some compose_file =>
          rc ← run compose_file;
          for_each_active run projects rest (int_or exit_code rc)
      end
  end.

Definition no_active_projects : message :=
  [Lit "[yellow]No active projects found in ";
   Val (PPath (DEFAULT_PATH DataClass));
   Lit ". Run `docker-captain manage` first.[/yellow]"].

(** The command [rally]. *)
Definition rally (detach remove_orphans : bool) : M unit :=
  projects ← discover;
  captain_data ← CaptainFile.load DataClass None;
  if negb (truthy (active_projects captain_data)) then
    console_print no_active_projects;;
    raise (Exit 0)
  else
    names ← lift (py_iter (active_projects captain_data));
    exit_code ← for_each_active
      (λ compose_file, DockerCompose.up docker compose_file
         [("detach", PBool detach); ("remove_orphans", PBool remove_orphans)]%string)
      projects names 0;
    raise (Exit exit_code).

(** The command [abandon]. *)
Definition abandon (remove_orphans : bool) : M unit :=
  projects ← discover;
  captain_data ← CaptainFile.load DataClass None;
  if negb (truthy (active_projects captain_data)) then
    console_print no_active_projects;;
    raise (Exit 0)
  else
    names ← lift (py_iter (active_projects captain_data));
    exit_code ← for_each_active
      (λ compose_file, DockerCompose.down docker compose_file
         [("remove_orphans", PBool remove_orphans)]%string)
      projects names 0;
    raise (Exit exit_code).

End Main.

(* ===================================================================== *)
(** * Notions used to state the properties                                *)
(* ===================================================================== *)

(** [fname] names a regular file in the directory [sub]. *)
Definition regular_file_in (sub : gmap string node) (fname : string) : Prop :=
  ∃ c, sub !! fname = Some (File c).

(** [fname] is the first of the recognized compose file names, in their
    order of precedence, that names a regular file in [sub]. *)
Definition first_recognized (sub : gmap string node) (fname : string) : Prop :=
  ∃ i, COMPOSE_FILENAMES !! i = Some fname
       ∧ regular_file_in sub fname
       ∧ ∀ j g, (j < i)%nat → COMPOSE_FILENAMES !! j = Some g →
                ¬ regular_file_in sub g.

(** What one child of the root contributes to the result of the scan. *)
Definition project_of (fs : node) (child : Path) : option (string * Path) :=
  if is_dir fs child
  then (λ candidate, (path_name child, candidate)) <$> first_compose_file fs child
  else None.

(** The exit code the runner is to report for what the tool did: the
    tool's own code when it ran, and 1 when it could not be run. *)
Definition reported (l : launch) : Z :=
  match l with
  | Exited code _ => code
  | CannotRun _ => 1
  end.

(** The three verbs of the runner. *)
Definition verbs (docker : list event → invocation → launch)
  : list (string * (Path → list (string * pyval) → M Z)) :=
  [("up", DockerCompose.up docker);
   ("down", DockerCompose.down docker);
   ("restart", DockerCompose.restart docker)]%string.

(** The calls of the external tool among the things done, in order, and
    the times the prompt was shown. *)
Definition executions (l : list event) : list invocation :=
  omap (λ e, match e with Exec inv => Some inv | _ => None end) l.

Definition prompts (l : list event) : list (list Choice) :=
  omap (λ e, match e with Ask _ choices => Some choices | _ => None end) l.


(** What was printed on the console. *)
Definition printed (l : list event) : list message :=
  omap (λ e, match e with Print msg => Some msg | _ => None end) l.

(** [s] starts with [p], letter case ignored: [s] splits into a head that
    equals [p] up to case, and a tail. *)
Definition starts_with_ignoring_case (s p : string) : Prop :=
  ∃ head tail, s = head +:+ tail ∧ lower head = lower p.

(** The status query, as [get_running_projects] issues it. *)
Definition ls_query : invocation :=
  Invocation ["ls"%string]
    [("format", PStr "json"); ("_ok_code", PList [PInt 0; PInt 1])]%string.


(** An entry at which the loop over the listing raises. *)
Definition bad_entry (item : pyval) : Prop :=
  (∀ d, item ≠ PDict d)
  ∨ ∃ d name status,
      item = PDict d ∧ dict_get d "Name" = Some name ∧ truthy name = true
      ∧ dict_get d "Status" = Some status ∧ ∀ s, status ≠ PStr s.


(** The entries the loop of the status query goes through: the items of
    a list, the keys of an object, the characters of a string; any other
    output cannot be gone through. *)
Definition listed (v : pyval) : option (list pyval) :=
  match v with
  | PList items => Some items
  | PDict d => Some (PStr <$> d.*1)
  | PStr s => Some (PStr <$> chars s)
  | _ => None
  end.

(** An answer in the form the status query asks for: parsed output that
    is a list. *)
Definition is_listing (l : launch) : bool :=
  match l with
  | Exited _ (Doc (PList _)) => true
  | _ => false
  end.

(** The answers to the status query on which the [try] block raises: the
    tool cannot be run, its exit code is neither 0 nor 1, its output
    cannot be parsed, cannot be gone through, or holds a bad entry. *)
Definition query_raises (l : launch) : Prop :=
  match l with
  | CannotRun _ => True
  | Exited code stdout =>
      code ∉ [0; 1]
      ∨ match stdout with
        | Corrupt => True
        | Doc v =>
            match listed v with
            | Some items => Exists bad_entry items
            | None => True
            end
        end
  end.

(** The answer [l] reports [name] as running: it is a list with an entry
    that has the true value [name] under "Name" and a status, taken as
    empty when the entry has none, that starts with "running", letter
    case ignored. *)
Definition reported_running (l : launch) (name : pyval) : Prop :=
  ∃ code items d status,
    l = Exited code (Doc (PList items))
    ∧ PDict d ∈ items
    ∧ dict_get d "Name" = Some name ∧ truthy name = true
    ∧ default (PStr "") (dict_get d "Status") = PStr status
    ∧ starts_with_ignoring_case status "running".

Definition running_warning (e : exn) : message :=
  [Lit "[yellow]Warning: could not determine running projects ("; Err e;
   Lit ")[/yellow]"].

(** The status query without its handler: what the body of the [try]
    block of [get_running_projects] computes from what the tool did. *)
Definition query_body (l : launch) : result (list pyval) :=
  match l with
  | CannotRun what => Raise (CommandError what)
  | Exited code stdout =>
      if bool_decide (code ∈ [0; 1])
      then data ← DockerCompose.json_loads stdout;
           items ← py_iter data;
           DockerCompose.collect_running items []
      else Raise (ErrorReturnCode code)
  end.

(** The warnings of the store. *)
Definition parse_warning (path : Path) (e : exn) : message :=
  [Lit "[yellow]Warning: Failed to parse "; Val (PPath path);
   Lit ": "; Err e; Lit "[/yellow]"].

Definition write_warning (path : Path) (e : exn) : message :=
  [Lit "[yellow]Warning: Failed to write "; Val (PPath path);
   Lit ": "; Err e; Lit "[/yellow]"].







(** The stored active-project list is [names]: loading the data record
    from [w] gives that list and leads to [w1]. *)
Definition stored_active (user_data_dir : Path) (w : World) (names : list string)
    (w1 : World) : Prop :=
  CaptainFile.load (CaptainData_cls user_data_dir) None w
  = (Ok {| active_projects := PList (PStr <$> names) |}, w1).

(** The two batch commands, each with the call of the runner it makes
    for a compose file. *)
Definition batch_commands (user_data_dir : Path)
    (docker : list event → invocation → launch) (root : Path)
    (detach remove_orphans : bool) : list (M unit * (Path → M Z)) :=
  [(rally user_data_dir docker root detach remove_orphans,
    λ compose_file, DockerCompose.up docker compose_file
      [("detach", PBool detach); ("remove_orphans", PBool remove_orphans)]%string);
   (abandon user_data_dir docker root remove_orphans,
    λ compose_file, DockerCompose.down docker compose_file
      [("remove_orphans", PBool remove_orphans)]%string)].


(** A computation that leaves the file system as it finds it, however it
    ends. *)
Definition keeps_fs {A} (m : M A) : Prop := ∀ w, fs (m w).2 = fs w.


(** The entries [manage] shows: the discovered names, sorted, each ticked
    when it is in the stored list. *)
Definition manage_choices (projects : list (string * Path)) (active : list string)
  : list Choice :=
  (λ n, {| title := n; value := n; checked := bool_decide (n ∈ active) |})
    <$> sorted projects.*1.

Definition manage_prompt : string :=
  "Select active projects (space to toggle, enter to confirm):".

Definition aborted_message : message :=
  [Lit "[yellow]Aborted (no changes made).[/yellow]"].

Definition no_projects_found (root : Path) : message :=
  [Lit "[yellow]No projects found in "; Val (PPath root); Lit ".[/yellow]"].

(** The document of a data record whose list is [names]. *)
Definition active_document (names : list string) : content :=
  Doc (PDict [("active_projects"%string, PList (PStr <$> names))]).

Definition saved_message (user_data_dir : Path) (count : nat) : message :=
  [Lit "[green]Saved "; Val (PInt (Z.of_nat count)); Lit " active project(s) to ";
   Val (PPath (DEFAULT_PATH (CaptainData_cls user_data_dir))); Lit "[/green]"].

(** The banner and the three closing lines of the runner. *)
Definition banner (action : string) (compose_file : Path) : message :=
  [Lit "[bold blue]"; Lit (upper action); Lit " ";
   Lit (path_name (path_parent compose_file)); Lit "[/bold blue]"].

Definition succeeded_line (action : string) (compose_file : Path) : message :=
  [Lit ":white_check_mark: [green]"; Lit action; Lit " succeeded for ";
   Lit (path_name (path_parent compose_file)); Lit "[/green]"].

Definition failed_line (exit_code : Z) : message :=
  [Lit "[red]Command failed with exit code "; Val (PInt exit_code); Lit "[/red]"].

Definition error_line (e : exn) : message :=
  [Lit "[red]Error executing docker compose: "; Err e; Lit "[/red]"].

(** The call the runner makes for [action] on [compose_file] with the
    options [kw]. *)
Definition compose_call (action : string) (compose_file : Path)
    (kw : list (string * pyval)) : invocation :=
  Invocation [action]
    ([("file", PPath compose_file); ("_fg", PBool true)]%string ++ kw).

(** The commands that work on one project, each with the verb of the
    runner it uses and the options it passes. *)
Definition single_commands (docker : list event → invocation → launch)
    (root : Path) (project : string) (detach remove_orphans : bool)
  : list (M unit * string * list (string * pyval)) :=
  [(start docker root project detach remove_orphans, "up",
    [("detach", PBool detach); ("remove_orphans", PBool remove_orphans)]);
   (stop docker root project remove_orphans, "down",
    [("remove_orphans", PBool remove_orphans)]);
   (restart docker root project, "restart", [])]%string.

(** The table of [list]: its title, its columns, and the row of one
    discovered project given the stored names and the running ones. *)
Definition table_title (root : Path) : message :=
  [Lit "Projects in "; Val (PPath root)].

Definition table_columns (verbose : bool) : list string :=
  ["Project"; "Active"; "Running"]%string
  ++ (if verbose then ["Compose File"%string] else []).

Definition table_row (verbose : bool) (active : list string) (running : list pyval)
    (item : string * Path) : list message :=
  [[Lit item.1];
   tick (bool_decide (item.1 ∈ active));
   tick (existsb (is_str item.1) running)]
  ++ if verbose then [[Val (PPath item.2)]] else [].

(** What one well-formed entry of the listing adds to the running
    projects: its name, when it has one that is not empty and its status,
    taken as empty when the entry has none, starts with "running" once
    lowered. *)
Definition running_name (item : pyval) : option pyval :=
  match item with
  | PDict d =>
      let name := default PNone (dict_get d "Name") in
      if truthy name then
        match default (PStr "") (dict_get d "Status") with
        | PStr status =>
            if startswith (lower status) "running" then Some name else None
        | _ => None
        end
      else None
  | _ => None
  end.

(** A computation that changes no regular file other than the one at
    [p], and creates none, however it ends. *)
Definition changes_only {A} (p : Path) (m : M A) : Prop :=
  ∀ w q c, q ≠ p →
    resolve (fs (m w).2) q = Some (File c) ↔ resolve (fs w) q = Some (File c).

(* ===================================================================== *)
(** * Concrete worlds used as examples                                    *)
(* ===================================================================== *)

Module Examples.

Local Open Scope string_scope.

(** A projects folder [/srv] holding [a/compose.yaml],
    [b/docker-compose.yml] and [c/readme.txt]. *)
Definition projects_tree : node :=
  Dir (list_to_map
    [("b", Dir {[ "docker-compose.yml" := File (Doc PNone) ]});
     ("a", Dir {[ "compose.yaml" := File (Doc PNone) ]});
     ("c", Dir {[ "readme.txt" := File (Doc PNone) ]})]).

Definition srv : Path := ["srv"].
Definition config_dir : Path := ["home"; ".config"; "docker-captain"].
Definition data_dir : Path := ["home"; ".local"; "share"; "docker-captain"].

(** A data file is put at its place in a file system that has [srv]. *)
Definition fs_with_data (data : option content) : node :=
  Dir (list_to_map
    [("srv", projects_tree);
     ("home", Dir {[ ".local" := Dir {[ "share" := Dir {[ "docker-captain" :=
        Dir (match data with
             | Some c => {[ "data.yaml" := File c ]}
             | None => ∅
             end) ]} ]} ]})]).

Definition world_with_data (data : option content) : World :=
  {| fs := fs_with_data data; events := [] |}.

(** A projects folder [/srv] that exists and holds no project, [c] having
    no compose file, next to a data file. *)
Definition world_without_projects (data : content) : World :=
  {| fs := Dir (list_to_map
       [("srv", Dir {[ "c" := Dir {[ "readme.txt" := File (Doc PNone) ]} ]});
        ("home", Dir {[ ".local" := Dir {[ "share" := Dir {[ "docker-captain" :=
           Dir {[ "data.yaml" := File data ]} ]} ]} ]})]);
     events := [] |}.

Definition active_doc (names : list string) : content :=
  Doc (PDict [("active_projects", PList (PStr <$> names))]).

(** An external tool that succeeds on every project but [b], where it
    ends with exit code 7. *)
Definition tool : list event → invocation → launch := λ _ inv,
  match dict_get (kwargs inv) "file" with
  | Some (PPath ["srv"; "b"; _]) => Exited 7 (Doc PNone)
  | _ => Exited 0 (Doc PNone)
  end.

(** A listing of the status query: [a] and [c] run, [b] has exited. *)
Definition listing : content :=
  Doc (PList
    [PDict [("Name", PStr "a"); ("Status", PStr "running(2)")];
     PDict [("Name", PStr "b"); ("Status", PStr "exited(1)")];
     PDict [("Name", PStr "c"); ("Status", PStr "Running(1)")]]).

Definition listing_tool : list event → invocation → launch :=
  λ _ _, Exited 0 listing.

(** A tool that answers every call with an empty JSON object. *)
Definition empty_object_tool : list event → invocation → launch :=
  λ _ _, Exited 0 (Doc (PDict [])).

(** A preferences record with one recent file, as its annotation
    [List[Path]] has it, and one whose recent files are [str]s. *)
Definition config_with_path : CaptainConfig :=
  {| theme := PStr "dark"; auto_update := PBool false;
     recent_files := PList [PPath ["home"; "notes.txt"]] |}.

Definition config_with_str : CaptainConfig :=
  {| theme := PStr "dark"; auto_update := PBool false;
     recent_files := PList [PStr "/home/notes.txt"] |}.

(** A person who ticks [b] alone and confirms, and one who aborts. *)
Definition ticks_b : list Choice → option (string → bool) :=
  λ _, Some (λ name, bool_decide (name = "b")).

Definition aborts : list Choice → option (string → bool) := λ _, None.

(** The discovered projects of [projects_tree]. *)
Definition discovered : list (string * Path) :=
  [("a", ["srv"; "a"; "compose.yaml"]);
   ("b", ["srv"; "b"; "docker-compose.yml"])].

End Examples.

(* ===================================================================== *)
(** * Properties of the string and path orders                            *)
(* ===================================================================== *)

Lemma str_le_compare a b : str_le a b ↔ String.compare a b ≠ Gt.
Proof.
  unfold str_le, String.leb. destruct (String.compare a b); split; congruence.
Qed.

Lemma str_lt_compare a b : str_lt a b ↔ String.compare a b = Lt.
Proof.
  unfold str_lt, String.ltb. destruct (String.compare a b); split; congruence.
Qed.

#[global] Instance str_le_total : Total str_le.
Proof. intros a b. apply String.leb_total. Qed.

#[global] Instance str_le_refl : Reflexive str_le.
Proof. intros a. destruct (str_le_total a a); assumption. Qed.

#[global] Instance str_le_antisym : AntiSymm (=) str_le.
Proof. intros a b. apply String.leb_antisym. Qed.

#[global] Instance str_lt_trans : Transitive str_lt.
Proof.
  intros a b c. rewrite !str_lt_compare.
  change String.compare with String_as_OT.cmp. rewrite !String_as_OT.cmp_lt.
  apply String_as_OT.lt_trans.
Qed.

Lemma str_le_lt_eq a b : str_le a b ↔ str_lt a b ∨ a = b.
Proof.
  rewrite str_le_compare, str_lt_compare. split.
  - destruct (String.compare a b) eqn:E; intros H.
    + right. by apply String.compare_eq_iff.
    + by left.
    + congruence.
  - intros [-> | ->]; [congruence|].
    pose proof (String_as_OT.cmp_eq b b) as [_ H].
    change String_as_OT.cmp with String.compare in H. rewrite H; congruence.
Qed.

#[global] Instance str_le_trans : Transitive str_le.
Proof.
  intros a b c. rewrite !str_le_lt_eq.
  intros [H1 | ->] [H2 | ->]; eauto. left. by etrans.
Qed.

Lemma str_lt_le_ne a b : str_lt a b ↔ str_le a b ∧ a ≠ b.
Proof.
  rewrite str_le_lt_eq. split.
  - intros H. split; [by left|]. intros ->.
    apply str_lt_compare in H.
    pose proof (String_as_OT.cmp_eq b b) as [_ H'].
    change String_as_OT.cmp with String.compare in H'. rewrite H' in H; congruence.
  - intros [[H | H] Hne]; done.
Qed.

(** A list sorted by [str_le] without duplicates is strictly increasing. *)
Lemma StronglySorted_le_NoDup (l : list string) :
  StronglySorted str_le l → NoDup l → StronglySorted str_lt l.
Proof.
  induction 1 as [| a l Hs IH Hall]; intros Hnd; constructor.
  - apply IH. by apply NoDup_cons in Hnd as [_ ?].
  - apply NoDup_cons in Hnd as [Hnotin _].
    rewrite Forall_forall in *. intros b Hb. apply str_lt_le_ne. split.
    + apply Hall. done.
    + intros ->. apply Hnotin. by apply list_elem_of_In.
Qed.

Lemma path_leb_app (root p q : Path) :
  path_leb (root ++ p) (root ++ q) = path_leb p q.
Proof. induction root as [| c root IH]; simpl; [done|]. by rewrite decide_True. Qed.

Lemma path_le_joinpath (root : Path) (a b : string) :
  path_le (joinpath root a) (joinpath root b) ↔ str_le a b.
Proof.
  unfold path_le, joinpath. rewrite path_leb_app. simpl.
  destruct (decide (a = b)) as [-> | Hne]; [|done].
  split; [intros _; reflexivity | done].
Qed.

#[global] Instance path_le_total : Total path_le.
Proof.
  intros p. induction p as [| a p IH]; intros [| b q]; unfold path_le; simpl; auto.
  destruct (decide (a = b)) as [-> | Hne].
  - rewrite decide_True by done. apply IH.
  - rewrite (decide_False (P := b = a)) by congruence. apply str_le_total.
Qed.

#[global] Instance path_le_antisym : AntiSymm (=) path_le.
Proof.
  intros p. induction p as [| a p IH]; intros [| b q]; unfold path_le; simpl; try done.
  destruct (decide (a = b)) as [-> | Hab].
  - rewrite decide_True by done. intros H1 H2. f_equal. by apply IH.
  - rewrite (decide_False (P := b = a)) by congruence. intros H1 H2.
    exfalso. apply Hab. by apply (anti_symm str_le).
Qed.

#[global] Instance path_le_trans : Transitive path_le.
Proof.
  intros p. induction p as [| a p IH]; intros [| b q] [| c r];
    unfold path_le; simpl; try done.
  destruct (decide (a = b)) as [-> | Hab].
  - destruct (decide (b = c)) as [-> | Hbc]; [apply IH | done].
  - destruct (decide (b = c)) as [-> | Hbc].
    + intros H _. by rewrite decide_False.
    + intros H1 H2. destruct (decide (a = c)) as [-> | Hac].
      * exfalso. apply Hab. by apply (anti_symm str_le).
      * exact (str_le_trans a b c H1 H2).
Qed.

(* ===================================================================== *)
(** * Project discovery                                                   *)
(* ===================================================================== *)

Lemma resolve_app (n : node) (p q : Path) :
  resolve n (p ++ q) = resolve n p ≫= λ n', resolve n' q.
Proof.
  revert n. induction p as [| c p IH]; intros n; simpl; [done|].
  destruct n as [| entries]; [done|]. destruct (entries !! c); [apply IH | done].
Qed.

Lemma resolve_child (fs : node) (root : Path) entries (name : string) :
  resolve fs root = Some (Dir entries) →
  resolve fs (joinpath root name) = entries !! name.
Proof.
  intros H. unfold joinpath. rewrite resolve_app, H. simpl.
  by destruct (entries !! name).
Qed.

Lemma path_name_joinpath (p : Path) (name : string) :
  path_name (joinpath p name) = name.
Proof. unfold path_name, joinpath. by rewrite last_snoc. Qed.

Lemma path_parent_joinpath (p : Path) (name : string) :
  path_parent (joinpath p name) = p.
Proof. unfold path_parent, joinpath. apply removelast_last. Qed.

(** [List.find] returns the first element that passes the test. *)
Lemma find_first {A} (P : A → bool) (l : list A) (x : A) :
  List.find P l = Some x ↔
  ∃ i, l !! i = Some x ∧ P x = true
       ∧ ∀ j y, (j < i)%nat → l !! j = Some y → P y = false.
Proof.
  induction l as [| a l IH]; simpl.
  - split; [done | by intros (i & ? & _)].
  - destruct (P a) eqn:Pa.
    + split.
      * intros [= ->]. exists 0%nat. repeat split; [done|]. intros j y Hj. lia.
      * intros (i & Hi & Px & Hbefore). destruct i as [| i]; [by simplify_eq/=|].
        specialize (Hbefore 0%nat a). simpl in Hbefore.
        rewrite Hbefore in Pa by (done || lia). done.
    + rewrite IH. split.
      * intros (i & Hi & Px & Hbefore). exists (S i). repeat split; [done..|].
        intros [| j] y Hj Hy; simplify_eq/=; [done|]. apply (Hbefore j); [lia | done].
      * intros (i & Hi & Px & Hbefore). destruct i as [| i]; simplify_eq/=; [congruence|].
        exists i. repeat split; [done..|].
        intros j y Hj Hy. apply (Hbefore (S j)); [lia | done].
Qed.

Lemma find_fmap {A B} (f : A → B) (P : B → bool) (l : list A) :
  List.find P (f <$> l) = f <$> List.find (λ a, P (f a)) l.
Proof. induction l as [| a l IH]; simpl; [done|]. by destruct (P (f a)). Qed.

(** On a child that is a directory, the test of the inner loop holds of
    a candidate exactly when its name is that of a regular file there. *)
Lemma candidate_test (fs : node) (child : Path) sub (fname : string) :
  resolve fs child = Some (Dir sub) →
  path_exists fs (joinpath child fname) && is_file fs (joinpath child fname) = true
  ↔ regular_file_in sub fname.
Proof.
  intros H. unfold path_exists, is_file, regular_file_in.
  rewrite (resolve_child _ _ _ _ H).
  destruct (sub !! fname) as [[c | m] |]; simpl; split; try done; eauto.
  all: by intros [c ?].
Qed.

Lemma first_compose_file_spec (fs : node) (child : Path) sub (candidate : Path) :
  resolve fs child = Some (Dir sub) →
  first_compose_file fs child = Some candidate ↔
  ∃ fname, first_recognized sub fname ∧ candidate = joinpath child fname.
Proof.
  intros H. unfold first_compose_file, first_recognized.
  rewrite find_fmap, fmap_Some. setoid_rewrite find_first.
  split.
  - intros (fname & (i & Hi & Hp & Hbefore) & ->). exists fname. split; [|done].
    exists i. split; [done|]. split; [by apply (candidate_test _ _ _ _ H)|].
    intros j g Hj Hg Hreg. apply (candidate_test _ _ _ _ H) in Hreg.
    rewrite (Hbefore j g) in Hreg; done.
  - intros (fname & (i & Hi & Hreg & Hbefore) & ->). exists fname. split; [|done].
    exists i. split; [done|]. split; [by apply (candidate_test _ _ _ _ H)|].
    intros j g Hj Hg. apply not_true_is_false. intros Hreg'.
    apply (candidate_test _ _ _ _ H) in Hreg'. by apply (Hbefore j g).
Qed.

Lemma dict_set_fresh {V} (d : list (string * V)) (k : string) (v : V) :
  k ∉ d.*1 → dict_set d k v = d ++ [(k, v)].
Proof.
  induction d as [| [k' v'] d IH]; simpl; [done|].
  intros Hk. apply not_elem_of_cons in Hk as [Hne Hk].
  rewrite decide_False by done. by rewrite IH.
Qed.

Lemma project_of_name (fs : node) (child : Path) (name : string) (file : Path) :
  project_of fs child = Some (name, file) → name = path_name child.
Proof.
  unfold project_of. destruct (is_dir fs child); [|done].
  destruct (first_compose_file fs child); simpl; [|done]. by intros [= <- _].
Qed.

Lemma omap_project_of_names (fs : node) (children : list Path) (name : string) :
  name ∈ (omap (project_of fs) children).*1 → name ∈ path_name <$> children.
Proof.
  rewrite !list_elem_of_fmap. intros ([n file] & -> & Hin).
  apply list_elem_of_omap in Hin as (child & Hchild & Hp).
  exists child. split; [|done]. by apply project_of_name in Hp.
Qed.

(** Over children with distinct names none of which is a key yet, the
    outer loop appends what each child contributes, in order. *)
Lemma scan_children_fresh (fs : node) (children : list Path)
    (acc : list (string * Path)) :
  NoDup (path_name <$> children) →
  (∀ c, c ∈ children → path_name c ∉ acc.*1) →
  scan_children fs children acc = acc ++ omap (project_of fs) children.
Proof.
  revert acc. induction children as [| child rest IH]; intros acc Hnd Hfresh; simpl.
  - by rewrite app_nil_r.
  - rewrite fmap_cons in Hnd. apply NoDup_cons in Hnd as [Hhd Hnd].
    assert (∀ c, c ∈ rest → path_name c ∉ acc.*1) as Hrest.
    { intros c Hc. apply Hfresh. by right. }
    unfold project_of at 1. destruct (is_dir fs child); simpl; [|by apply IH].
    destruct (first_compose_file fs child) as [candidate |]; simpl; [|by apply IH].
    rewrite dict_set_fresh by (apply Hfresh; left).
    rewrite IH; [by rewrite <- app_assoc | done |].
    intros c Hc. rewrite fmap_app, elem_of_app. intros [Hin | Hin].
    + by apply (Hrest c).
    + simpl in Hin. apply list_elem_of_singleton in Hin.
      apply Hhd. rewrite <- Hin. apply list_elem_of_fmap. eauto.
Qed.

(** The keys of what a strictly increasing list of children contributes
    are strictly increasing. *)
Lemma omap_project_of_sorted (fs : node) (children : list Path) :
  StronglySorted str_lt (path_name <$> children) →
  StronglySorted str_lt (omap (project_of fs) children).*1.
Proof.
  induction children as [| child rest IH]; simpl; [constructor|].
  intros Hs. apply StronglySorted_inv in Hs as [Hs Hall].
  destruct (project_of fs child) as [[name file] |] eqn:Hp; simpl; [|by apply IH].
  constructor; [by apply IH|].
  apply project_of_name in Hp as ->.
  rewrite Forall_forall in *. intros n Hn. apply Hall.
  by apply omap_project_of_names in Hn.
Qed.

(** Sorting the children of one directory sorts them by name. *)
Lemma sorted_paths_joinpath (root : Path) (names : list string) :
  sorted_paths (joinpath root <$> names) = joinpath root <$> sorted names.
Proof.
  apply (StronglySorted_unique path_le).
  - apply (StronglySorted_merge_sort _).
  - apply (StronglySorted_fmap _ str_le).
    + intros a b. by rewrite path_le_joinpath.
    + apply (StronglySorted_merge_sort _).
  - unfold sorted_paths, sorted. by rewrite !merge_sort_Permutation.
Qed.

Lemma sorted_strict (names : list string) :
  NoDup names → StronglySorted str_lt (sorted names).
Proof.
  intros Hnd. apply StronglySorted_le_NoDup.
  - apply (StronglySorted_merge_sort _).
  - unfold sorted. by rewrite merge_sort_Permutation.
Qed.

Lemma project_of_spec (fs : node) (root : Path) entries (n name : string) (file : Path) :
  resolve fs root = Some (Dir entries) →
  project_of fs (joinpath root n) = Some (name, file) ↔
  name = n ∧ ∃ sub fname,
    entries !! n = Some (Dir sub) ∧ first_recognized sub fname
    ∧ file = root ++ [n; fname].
Proof.
  intros Hroot. unfold project_of, is_dir.
  pose proof (resolve_child fs root entries n Hroot) as Hchild. rewrite Hchild.
  destruct (entries !! n) as [[c | sub] |] eqn:Hn.
  - split; [done | by intros (_ & ? & ? & ? & _)].
  - assert (Hdir : resolve fs (joinpath root n) = Some (Dir sub)) by congruence.
    rewrite fmap_Some, path_name_joinpath. split.
    + intros (candidate & Hfind & [= <- <-]).
      apply (first_compose_file_spec _ _ _ _ Hdir) in Hfind as (fname & Hfirst & ->).
      split; [done|]. exists sub, fname. repeat split; [done|].
      unfold joinpath. by rewrite <- app_assoc.
    + intros (-> & sub' & fname & [= <-] & Hfirst & ->).
      exists (joinpath (joinpath root n) fname). split.
      * apply (first_compose_file_spec _ _ _ _ Hdir). by exists fname.
      * unfold joinpath. by rewrite <- app_assoc.
  - split; [done | by intros (_ & ? & ? & ? & _)].
Qed.

(** What [discover_projects] returns, by what the root is. *)
Lemma discover_projects_eval (fs : node) (root : Path) :
  discover_projects fs root
  = match resolve fs root with
    | None => Ok []
    | Some (File _) => Raise (OSError "not a directory")
    | Some (Dir entries) =>
        Ok (omap (project_of fs) (joinpath root <$> sorted (map_to_list entries).*1))
    end.
Proof.
  unfold discover_projects, path_exists, iterdir.
  destruct (resolve fs root) as [[c | entries] |] eqn:Hres; simpl; [done | | done].
  rewrite sorted_paths_joinpath. rewrite scan_children_fresh; [done | |].
  - rewrite <- list_fmap_compose.
    rewrite (list_fmap_ext _ id _ (λ i n _, path_name_joinpath root n)), list_fmap_id.
    unfold sorted. rewrite merge_sort_Permutation. apply NoDup_fst_map_to_list.
  - intros c _. apply not_elem_of_nil.
Qed.

(** The keys of a discovery result are strictly increasing. *)
Lemma discover_projects_sorted (fs : node) (root : Path)
    (projects : list (string * Path)) :
  discover_projects fs root = Ok projects → StronglySorted str_lt projects.*1.
Proof.
  rewrite discover_projects_eval.
  destruct (resolve fs root) as [[c | entries] |]; [done | | intros [= <-]; constructor].
  intros [= <-]. apply omap_project_of_sorted.
  rewrite <- list_fmap_compose.
  rewrite (list_fmap_ext _ id _ (λ i n _, path_name_joinpath root n)), list_fmap_id.
  apply sorted_strict, NoDup_fst_map_to_list.
Qed.

(** C2. [discover_projects], on a root that is a directory or does not
    exist, returns (without raising) the mapping whose keys are exactly
    the immediate subdirectories of the root that hold a regular file
    with one of the four recognized names, each mapped to the first such
    file in the order of precedence; the keys come in strictly increasing
    order, so every project is listed once and in sorted order; entries
    that are not directories and directories without a recognized file
    are not keys; and a root that does not exist gives the empty
    mapping. *)
Theorem discover_projects_spec (fs : node) (root : Path) :
  (∀ c, resolve fs root ≠ Some (File c)) →
  ∃ projects,
    discover_projects fs root = Ok projects
    ∧ (resolve fs root = None → projects = [])
    ∧ StronglySorted str_lt projects.*1
    ∧ ∀ name file, (name, file) ∈ projects ↔
        ∃ entries sub fname,
          resolve fs root = Some (Dir entries)
          ∧ entries !! name = Some (Dir sub)
          ∧ first_recognized sub fname
          ∧ file = root ++ [name; fname].
Proof.
  intros Hroot. rewrite discover_projects_eval.
  destruct (resolve fs root) as [[c | entries] |] eqn:Hres.
  - by destruct (Hroot c).
  - eexists. split; [done|]. split; [done|]. split.
    + apply (discover_projects_sorted fs root).
      by rewrite discover_projects_eval, Hres.
    + intros name file. rewrite list_elem_of_omap. split.
      * intros (child & Hchild & Hp).
        apply list_elem_of_fmap in Hchild as (n & -> & Hn).
        apply (project_of_spec _ _ _ _ _ _ Hres) in Hp
          as (-> & sub & fname & ? & ? & ->).
        by exists entries, sub, fname.
      * intros (entries' & sub & fname & [= <-] & Hsub & Hfirst & ->).
        exists (joinpath root name). split.
        -- apply list_elem_of_fmap_2. unfold sorted.
           rewrite merge_sort_Permutation. apply list_elem_of_fmap.
           exists (name, Dir sub). split; [done|].
           by apply elem_of_map_to_list.
        -- apply (project_of_spec _ _ _ _ _ _ Hres). split; [done|].
           by exists sub, fname.
  - exists []. split; [done|]. split; [done|]. split; [constructor|].
    intros name file. split; [by intros ?%elem_of_nil|].
    by intros (? & ? & ? & ? & _).
Qed.

Lemma discover_projects_spec_witness :
  (∀ c, resolve (Examples.fs_with_data None) Examples.srv ≠ Some (File c))
  ∧ ∃ projects,
      discover_projects (Examples.fs_with_data None) Examples.srv = Ok projects
      ∧ (resolve (Examples.fs_with_data None) Examples.srv = None → projects = [])
      ∧ StronglySorted str_lt projects.*1
      ∧ ∀ name file, (name, file) ∈ projects ↔
          ∃ entries sub fname,
            resolve (Examples.fs_with_data None) Examples.srv = Some (Dir entries)
            ∧ entries !! name = Some (Dir sub)
            ∧ first_recognized sub fname
            ∧ file = Examples.srv ++ [name; fname].
Proof.
  assert (H : ∀ c, resolve (Examples.fs_with_data None) Examples.srv ≠ Some (File c))
    by (intros c; vm_compute; discriminate).
  split; [exact H | exact (discover_projects_spec _ _ H)].
Defined.

(** The example of the specification: [a] and [b] are found, [c] is not. *)
Example discover_projects_example :
  discover_projects (Examples.fs_with_data None) Examples.srv
  = Ok [("a", ["srv"; "a"; "compose.yaml"]);
        ("b", ["srv"; "b"; "docker-compose.yml"])]%string.
Proof. reflexivity. Qed.

(* ===================================================================== *)
(** * The compose runner                                                  *)
(* ===================================================================== *)

(** Unfolding the monad. *)
Ltac run :=
  repeat (progress (unfold mbind, mret, M_bind, M_ret, result_bind, result_ret,
                      raise, lift, try_except, get_fs, set_fs, emit,
                      console_print, console_rule in *; simpl in *)).

Lemma ok_codes_default (k1 k2 : string) (v1 v2 : pyval) (kw : list (string * pyval)) :
  k1 ≠ "_ok_code"%string → k2 ≠ "_ok_code"%string →
  dict_get kw "_ok_code" = None →
  ok_codes ((k1, v1) :: (k2, v2) :: kw) = [0].
Proof.
  intros H1 H2 Hkw. unfold ok_codes. simpl.
  rewrite !decide_False by done. by rewrite Hkw.
Qed.

Lemma executions_app (l1 l2 : list event) :
  executions (l1 ++ l2) = executions l1 ++ executions l2.
Proof. apply omap_app. Qed.

(** Keywords that do not clash pass; a clash is a [TypeError]. *)
Lemma pass_kwargs_clear (named : list string) (kw : list (string * pyval)) :
  Forall (λ k, dict_get kw k = None) named → pass_kwargs named kw = Ok tt.
Proof.
  induction 1 as [| k rest Hk _ IH]; simpl; [done|]. by rewrite Hk.
Qed.

Lemma pass_kwargs_raises (named : list string) (kw : list (string * pyval)) (e : exn) :
  pass_kwargs named kw = Raise e → ∃ what, e = TypeError what.
Proof.
  induction named as [| k rest IH]; simpl; [done|].
  destruct (dict_get kw k); [|done]. intros [= <-]. eauto.
Qed.

Lemma pass_kwargs_clash (named : list string) (kw : list (string * pyval)) :
  Exists (λ k, dict_get kw k ≠ None) named →
  ∃ what, pass_kwargs named kw = Raise (TypeError what).
Proof.
  induction 1 as [k rest Hk | k rest _ IH]; simpl.
  - destruct (dict_get kw k); [eauto | done].
  - destruct (dict_get kw k); eauto.
Qed.

(** The runner, evaluated: with an option named [file] or [_fg] the call
    of the tool is refused before the tool is started; otherwise the tool
    is run and its end decides the result. *)
Lemma docker_compose_run_eval docker (compose_file : Path) (action : string)
    (kw : list (string * pyval)) (w : World) :
  let inv := compose_call action compose_file kw in
  let history := events w ++ [Rule (banner action compose_file)] in
  DockerCompose._docker_compose_run docker compose_file action kw w
  = match pass_kwargs ["file"; "_fg"]%string kw with
    | Raise e =>
        (Ok 1, {| fs := fs w; events := history ++ [Print (error_line e)] |})
    | Ok _ =>
        match docker history inv with
        | CannotRun what =>
            (Ok 1, {| fs := fs w;
                      events := history
                                ++ [Exec inv; Print (error_line (CommandError what))] |})
        | Exited code _ =>
            if bool_decide (code ∈ ok_codes (kwargs inv))
            then (Ok 0, {| fs := fs w;
                           events := history
                                     ++ [Exec inv;
                                         Print (succeeded_line action compose_file)] |})
            else (Ok code, {| fs := fs w;
                              events := history ++ [Exec inv; Print (failed_line code)] |})
        end
    end.
Proof.
  intros inv history.
  destruct (pass_kwargs ["file"; "_fg"]%string kw) as [[] | e] eqn:Hpass.
  - unfold DockerCompose._docker_compose_run, DockerCompose.sh_call.
    unfold mbind at 1, M_bind at 1. unfold console_rule, emit at 1.
    unfold try_except, mbind, M_bind, lift. rewrite Hpass. cbn [fs events].
    fold (banner action compose_file). fold history.
    change (Invocation [action] _) with inv.
    destruct (docker history inv) as [what | code stdout]; simpl.
    + by rewrite <- !app_assoc.
    + destruct (bool_decide (code ∈ ok_codes _)); simpl; by rewrite <- !app_assoc.
  - destruct (pass_kwargs_raises _ _ _ Hpass) as [what ->].
    unfold DockerCompose._docker_compose_run.
    unfold mbind at 1, M_bind at 1. unfold console_rule, emit at 1.
    unfold try_except, mbind, M_bind, lift. rewrite Hpass. cbn [fs events].
    fold (banner action compose_file). fold history. reflexivity.
Qed.

Lemma docker_compose_run_result docker (compose_file : Path) (action : string)
    (kw : list (string * pyval)) (w : World) :
  dict_get kw "file" = None →
  dict_get kw "_fg" = None →
  dict_get kw "_ok_code" = None →
  ∃ rule inv line,
    DockerCompose._docker_compose_run docker compose_file action kw w
    = (Ok (reported (docker (events w ++ [Rule rule]) inv)),
       {| fs := fs w; events := events w ++ [Rule rule; Exec inv; Print line] |})
    ∧ args inv = [action]
    ∧ dict_get (kwargs inv) "file" = Some (PPath compose_file).
Proof.
  intros Hfile Hfg Hkw. rewrite docker_compose_run_eval.
  rewrite pass_kwargs_clear by (by repeat constructor).
  exists (banner action compose_file), (compose_call action compose_file kw).
  unfold compose_call at 2. simpl kwargs. rewrite ok_codes_default by done.
  destruct (docker _ _) as [what | code stdout] eqn:Hrun; simpl.
  - eexists. rewrite <- !app_assoc. simpl. by repeat split.
  - destruct (decide (code = 0)) as [-> | Hne].
    + rewrite bool_decide_true by (by apply list_elem_of_singleton).
      eexists. rewrite <- !app_assoc. simpl. by repeat split.
    + rewrite bool_decide_false by (by rewrite list_elem_of_singleton).
      eexists. rewrite <- !app_assoc. simpl. by repeat split.
Qed.

(** Each verb passes its options on next to [compose_file] and
    [action]. *)
Lemma verbs_eval docker (verb : string) run_verb (compose_file : Path)
    (kw : list (string * pyval)) (w : World) :
  (verb, run_verb) ∈ verbs docker →
  run_verb compose_file kw w
  = match pass_kwargs ["compose_file"; "action"]%string kw with
    | Ok _ => DockerCompose._docker_compose_run docker compose_file verb kw w
    | Raise e => (Raise e, w)
    end.
Proof.
  intros Hverb. unfold verbs in Hverb. rewrite !elem_of_cons in Hverb.
  destruct Hverb as [[= -> ->] | [[= -> ->] | [[= -> ->] | []%elem_of_nil]]];
    unfold DockerCompose.up, DockerCompose.down, DockerCompose.restart;
    unfold mbind at 1, M_bind at 1, lift;
    by destruct (pass_kwargs _ kw) as [[] | e].
Qed.

(** C6. [up], [down] and [restart], called with options that leave the
    accepted exit codes alone.  When no option is named [compose_file] or
    [action], the call returns normally, so nothing is raised past it, and
    the file system is left as it was: after the banner the tool is run
    once, on the compose file, and the result is 0 when the tool ends with
    code 0, the tool's own exit code when that is not 0, and 1 when the
    tool could not be run at all; an option named [file] or [_fg] is such
    a case, the tool is then not started.  With an option named
    [compose_file] or [action] the call raises a [TypeError] and nothing
    is printed or run. *)
Theorem runner_exit_code docker (verb : string) run_verb
    (compose_file : Path) (kw : list (string * pyval)) (w : World) :
  (verb, run_verb) ∈ verbs docker →
  dict_get kw "_ok_code" = None →
  match dict_get kw "compose_file", dict_get kw "action" with
  | None, None =>
      ∃ rc rule said,
        run_verb compose_file kw w
        = (Ok rc, {| fs := fs w; events := events w ++ Rule rule :: said |})
        ∧ match dict_get kw "file", dict_get kw "_fg" with
          | None, None =>
              ∃ inv line,
                said = [Exec inv; Print line]
                ∧ args inv = [verb]
                ∧ dict_get (kwargs inv) "file" = Some (PPath compose_file)
                ∧ match docker (events w ++ [Rule rule]) inv with
                  | Exited 0 _ => rc = 0
                  | Exited code _ => rc = code ∧ code ≠ 0
                  | CannotRun _ => rc = 1
                  end
          | _, _ => rc = 1 ∧ executions said = []
          end
  | _, _ => ∃ what, run_verb compose_file kw w = (Raise (TypeError what), w)
  end.
Proof.
  intros Hverb Hkw. rewrite (verbs_eval docker verb run_verb) by done.
  destruct (dict_get kw "compose_file") as [v |] eqn:Hcf.
  { destruct (pass_kwargs_clash ["compose_file"; "action"]%string kw) as [what ->];
      [|by exists what].
    left. by rewrite Hcf. }
  destruct (dict_get kw "action") as [v |] eqn:Haction.
  { destruct (pass_kwargs_clash ["compose_file"; "action"]%string kw) as [what ->];
      [|by exists what].
    right. left. by rewrite Haction. }
  rewrite pass_kwargs_clear by (by repeat constructor).
  destruct (dict_get kw "file") as [v |] eqn:Hfile.
  { rewrite docker_compose_run_eval.
    destruct (pass_kwargs_clash ["file"; "_fg"]%string kw) as [what ->].
    { left. by rewrite Hfile. }
    eexists 1, _, [_]. rewrite <- app_assoc. by repeat split. }
  destruct (dict_get kw "_fg") as [v |] eqn:Hfg.
  { rewrite docker_compose_run_eval.
    destruct (pass_kwargs_clash ["file"; "_fg"]%string kw) as [what ->].
    { right. left. by rewrite Hfg. }
    eexists 1, _, [_]. rewrite <- app_assoc. by repeat split. }
  destruct (docker_compose_run_result docker compose_file verb kw w Hfile Hfg Hkw)
    as (rule & inv & line & -> & Hargs & Hinv).
  exists (reported (docker (events w ++ [Rule rule]) inv)), rule, [Exec inv; Print line].
  split; [done|]. exists inv, line. repeat split; [done.. |].
  destruct (docker _ inv) as [what | code stdout]; simpl; [done|].
  destruct code; done.
Qed.

Lemma runner_exit_code_witness :
  let w := Examples.world_with_data None in
  let compose_file := ["srv"; "b"; "docker-compose.yml"]%string in
  let kw := [("detach"%string, PBool true)] in
  (("up"%string, DockerCompose.up Examples.tool) ∈ verbs Examples.tool
   ∧ dict_get kw "_ok_code" = None)
  ∧ ∃ rc rule said,
      DockerCompose.up Examples.tool compose_file kw w
      = (Ok rc, {| fs := fs w; events := events w ++ Rule rule :: said |})
      ∧ ∃ inv line,
          said = [Exec inv; Print line]
          ∧ args inv = ["up"%string]
          ∧ dict_get (kwargs inv) "file" = Some (PPath compose_file)
          ∧ match Examples.tool (events w ++ [Rule rule]) inv with
            | Exited 0 _ => rc = 0
            | Exited code _ => rc = code ∧ code ≠ 0
            | CannotRun _ => rc = 1
            end.
Proof.
  intros w compose_file kw.
  assert (H1 : ("up"%string, DockerCompose.up Examples.tool) ∈ verbs Examples.tool)
    by (unfold verbs; left).
  assert (H2 : dict_get kw "_ok_code" = None) by reflexivity.
  split; [by split|].
  exact (runner_exit_code Examples.tool "up" _ compose_file kw w H1 H2).
Defined.

(** C6 as stated fails: called with an option named [action], as in
    [up(compose_file, action="down")], [up] does not return an exit
    code. *)
Lemma runner_raises_on_a_repeated_keyword :
  let w := Examples.world_with_data None in
  let compose_file := ["srv"; "b"; "docker-compose.yml"]%string in
  ¬ ∃ rc w',
      DockerCompose.up Examples.tool compose_file [("action"%string, PStr "down")] w
      = (Ok rc, w').
Proof. intros w compose_file (rc & w' & Hreturns). discriminate Hreturns. Qed.

(** What it does there: the [TypeError] leaves [up], and neither the
    banner is printed nor the tool run. *)
Example up_with_an_action_option :
  let w := Examples.world_with_data None in
  DockerCompose.up Examples.tool ["srv"; "b"; "docker-compose.yml"]%string
    [("action"%string, PStr "down")] w
  = (Raise (TypeError "got multiple values for keyword argument action"), w).
Proof. reflexivity. Qed.

(** On project [b] the example tool ends with code 7, which [up] returns. *)
Example up_returns_the_tools_code :
  (DockerCompose.up Examples.tool ["srv"; "b"; "docker-compose.yml"]%string []
     (Examples.world_with_data None)).1 = Ok 7.
Proof. reflexivity. Qed.

(** An option named [file]: the tool is not started, and [up] returns 1. *)
Example up_with_a_file_option :
  let w := Examples.world_with_data None in
  let r := DockerCompose.up Examples.tool ["srv"; "a"; "compose.yaml"]%string
             [("file"%string, PStr "other.yaml")] w in
  r.1 = Ok 1 ∧ executions (events r.2) = executions (events w).
Proof. by split. Qed.

(* ===================================================================== *)
(** * The status query                                                    *)
(* ===================================================================== *)

Lemma append_cons (c : ascii) (a b : string) :
  String c a +:+ b = String c (a +:+ b).
Proof. reflexivity. Qed.

Lemma append_nil (b : string) : ""%string +:+ b = b.
Proof. reflexivity. Qed.

Lemma prefix_app (p s : string) :
  String.prefix p s = true ↔ ∃ tail, s = p +:+ tail.
Proof.
  revert s. induction p as [| a p IH]; intros s.
  - destruct s; simpl; (split; [eauto | done]).
  - destruct s as [| b s]; simpl; [split; [done | intros [? H]; by rewrite append_cons in H]|].
    destruct (ascii_dec a b) as [-> | Hne].
    + rewrite IH. split; intros [tail H]; exists tail; rewrite append_cons in *; congruence.
    + split; [done | intros [tail H]; rewrite append_cons in H; congruence].
Qed.

(** The test of the code, [status.lower().startswith(p.lower())], is the
    comparison of the head of [status] with [p], case ignored. *)
Lemma startswith_lower (status p : string) :
  startswith (lower status) (lower p) = true ↔ starts_with_ignoring_case status p.
Proof.
  unfold startswith, starts_with_ignoring_case, lower. rewrite prefix_app.
  revert status. induction p as [| a p IH]; intros status.
  - split; [|by exists (str_map lower_ascii status)].
    intros _. by exists ""%string, status.
  - destruct status as [| b status]; simpl.
    + split; [intros [tail H]; by rewrite append_cons in H|].
      intros (head & tail & Hs & Hl). destruct head; simplify_eq/=.
    + split.
      * intros [tail H]. rewrite append_cons in H. injection H as Hab Hrest.
        destruct (proj1 (IH status)) as (head & tail' & -> & Hl); [by exists tail|].
        exists (String b head), tail'. split; [done|]. simpl. by rewrite Hab, Hl.
      * intros (head & tail & Hs & Hl).
        destruct head as [| c head]; [done|]. rewrite append_cons in Hs.
        simpl in Hl. simplify_eq.
        destruct (proj2 (IH (head +:+ tail))) as [tail' Ht]; [by exists head, tail|].
        exists tail'. rewrite append_cons. by f_equal.
Qed.

Lemma py_get_raises (item : pyval) (key : string) (dflt : pyval) (e : exn) :
  py_get item key dflt = Raise e → e = AttributeError "get".
Proof. destruct item; simpl; congruence. Qed.

Lemma py_lower_raises (v : pyval) (e : exn) :
  py_lower v = Raise e → e = AttributeError "lower".
Proof. destruct v; simpl; congruence. Qed.

(** One turn of the loop either raises an [AttributeError] or goes on
    with the rest. *)
Lemma collect_running_step (item : pyval) (rest acc : list pyval) :
  (∃ what, DockerCompose.collect_running (item :: rest) acc
           = Raise (AttributeError what))
  ∨ (∃ acc', DockerCompose.collect_running (item :: rest) acc
             = DockerCompose.collect_running rest acc').
Proof.
  simpl. destruct (py_get item "Name" PNone) as [name | e] eqn:Hname; run.
  2: { apply py_get_raises in Hname as ->. eauto. }
  destruct (truthy name); [|eauto].
  destruct (py_get item "Status" (PStr "")) as [status | e] eqn:Hstatus; run.
  2: { apply py_get_raises in Hstatus as ->. eauto. }
  destruct (py_lower status) as [lowered | e] eqn:Hlower; run.
  2: { apply py_lower_raises in Hlower as ->. eauto. }
  destruct (startswith lowered "running"); eauto.
Qed.

Lemma collect_running_bad (items : list pyval) (item : pyval) (acc : list pyval) :
  item ∈ items → bad_entry item →
  ∃ e, DockerCompose.collect_running items acc = Raise e.
Proof.
  intros Hin Hbad. revert acc.
  induction items as [| x rest IH]; intros acc; [by apply elem_of_nil in Hin|].
  apply elem_of_cons in Hin as [<- | Hin].
  - simpl. destruct Hbad as [Hnot | (d & name & status & -> & Hn & Ht & Hs & Hstr)].
    + destruct item; run; eauto. by destruct (Hnot d).
    + unfold py_get. run. rewrite Hn, Hs. simpl. rewrite Ht.
      destruct status; run; eauto. by destruct (Hstr s).
  - destruct (collect_running_step x rest acc) as [[what He] | [acc' Hacc]]; [eauto|].
    rewrite Hacc. by apply IH.
Qed.


Lemma collect_running_no_exit (items acc : list pyval) (e : exn) :
  DockerCompose.collect_running items acc = Raise e → ∀ code, e ≠ SystemExit code.
Proof.
  revert acc. induction items as [| item rest IH]; intros acc; [done|].
  destruct (collect_running_step item rest acc) as [[what ->] | [acc' ->]].
  - by intros [= <-].
  - apply IH.
Qed.

Lemma query_body_no_exit (l : launch) (e : exn) :
  query_body l = Raise e → ∀ code, e ≠ SystemExit code.
Proof.
  destruct l as [what | c stdout]; simpl; [by intros [= <-]|].
  destruct (bool_decide _); [|by intros [= <-]].
  destruct stdout as [v |]; run; [|by intros [= <-]].
  destruct v; run; try (intros [= <-]; done); apply collect_running_no_exit.
Qed.

(** [get_running_projects] runs the query once and turns every exception
    of its body into a warning and the empty list. *)
Lemma get_running_projects_eval docker (w : World) :
  DockerCompose.get_running_projects docker w
  = match query_body (docker (events w) ls_query) with
    | Ok running =>
        (Ok running, {| fs := fs w; events := events w ++ [Exec ls_query] |})
    | Raise e =>
        (Ok [], {| fs := fs w;
                   events := events w ++ [Exec ls_query; Print (running_warning e)] |})
    end.
Proof.
  pose proof (query_body_no_exit (docker (events w) ls_query)) as Hexit.
  unfold DockerCompose.get_running_projects, DockerCompose.sh_call, query_body in *.
  run. fold ls_query.
  destruct (docker (events w) ls_query) as [what | code stdout]; simpl.
  - by rewrite <- app_assoc.
  - change (ok_codes _) with [0; 1].
    destruct (bool_decide (code ∈ [0; 1])); simpl; [|by rewrite <- app_assoc].
    destruct stdout as [v |]; run; [|by rewrite <- app_assoc].
    destruct (py_iter v) as [items | e] eqn:Hiter; run.
    + destruct (DockerCompose.collect_running items []) as [running | e] eqn:Hc; [done|].
      destruct e; try (by rewrite <- app_assoc). by destruct (Hexit _ eq_refl code0).
    + destruct e; try (by rewrite <- app_assoc). by destruct (Hexit _ eq_refl code0).
Qed.

Lemma collect_running_good (items acc : list pyval) :
  Forall (λ item, ¬ bad_entry item) items →
  DockerCompose.collect_running items acc = Ok (acc ++ omap running_name items).
Proof.
  intros Hgood. revert acc.
  induction Hgood as [| item rest Hitem _ IH]; intros acc; simpl.
  - by rewrite app_nil_r.
  - destruct item as [| | | | | | d]; try (exfalso; apply Hitem; by left).
    unfold py_get. run.
    destruct (truthy (default PNone (dict_get d "Name"))) eqn:Hname; [|apply IH].
    destruct (dict_get d "Status") as [status |] eqn:Hstatus; simpl.
    + destruct (dict_get d "Name") as [name |] eqn:Hn; [|done]. simpl in Hname.
      destruct status as [| | | s | | |];
        try (exfalso; apply Hitem; right;
             eexists d, name, _; repeat split; [done.. |]; by intros s).
      run. destruct (startswith (lower s) "running"); [|apply IH].
      rewrite IH. by rewrite <- app_assoc.
    + change (startswith (lower "") "running") with false. cbv iota. apply IH.
Qed.

Lemma listed_py_iter (v : pyval) :
  py_iter v = match listed v with
              | Some items => Ok items
              | None => Raise (TypeError "object is not iterable")
              end.
Proof. by destruct v. Qed.

Lemma not_Exists_bad (items : list pyval) :
  ¬ Exists bad_entry items → Forall (λ item, ¬ bad_entry item) items.
Proof.
  induction items as [| item rest IH]; intros Hnot; constructor.
  - intros Hbad. apply Hnot. by left.
  - apply IH. intros Hbad. apply Hnot. by right.
Qed.

Lemma bad_entry_dec (item : pyval) : bad_entry item ∨ ¬ bad_entry item.
Proof.
  destruct item as [| | | | | | d]; try (left; by left).
  destruct (dict_get d "Name") as [name |] eqn:Hn.
  2: { right. intros [Hnot | (d' & n & s & [= <-] & Hn' & _)]; [by destruct (Hnot d)|].
       by rewrite Hn in Hn'. }
  destruct (truthy name) eqn:Ht.
  2: { right. intros [Hnot | (d' & n & s & [= <-] & Hn' & Ht' & _)];
         [by destruct (Hnot d)|].
       rewrite Hn in Hn'. injection Hn' as <-. by rewrite Ht in Ht'. }
  destruct (dict_get d "Status") as [status |] eqn:Hs.
  2: { right. intros [Hnot | (d' & n & s & [= <-] & _ & _ & Hs' & _)];
         [by destruct (Hnot d)|].
       by rewrite Hs in Hs'. }
  destruct status as [| | | text | | |];
    try (left; right; eexists d, name, _; repeat split; [done.. |]; by intros s).
  right. intros [Hnot | (d' & n & s & [= <-] & _ & _ & Hs' & Hstr)];
    [by destruct (Hnot d)|].
  rewrite Hs in Hs'. injection Hs' as <-. by destruct (Hstr text).
Qed.

Lemma good_or_bad (items : list pyval) :
  Forall (λ item, ¬ bad_entry item) items ∨ Exists bad_entry items.
Proof.
  induction items as [| item rest [IH | IH]].
  - left. constructor.
  - destruct (bad_entry_dec item) as [Hbad | Hgood].
    + right. by left.
    + left. by constructor.
  - right. by right.
Qed.

(** The names the loop keeps are those of the entries reported as
    running. *)
Lemma running_name_spec (items : list pyval) (name : pyval) :
  name ∈ omap running_name items
  ↔ ∃ d status,
      PDict d ∈ items
      ∧ dict_get d "Name" = Some name ∧ truthy name = true
      ∧ default (PStr "") (dict_get d "Status") = PStr status
      ∧ starts_with_ignoring_case status "running".
Proof.
  rewrite list_elem_of_omap. split.
  - intros (item & Hin & Hname). destruct item as [| | | | | | d]; try done.
    simpl in Hname.
    destruct (dict_get d "Name") as [n |] eqn:Hn; simpl in Hname; [|done].
    destruct (truthy n) eqn:Ht; [|done].
    destruct (default (PStr "") (dict_get d "Status")) as [| | | status | | |] eqn:Hs;
      try done.
    destruct (startswith (lower status) "running") eqn:Hrun; [|done].
    injection Hname as <-. exists d, status. repeat split; try done.
    by apply (startswith_lower status "running").
  - intros (d & status & Hin & Hn & Ht & Hs & Hrun).
    exists (PDict d). split; [done|]. simpl. rewrite Hn. simpl. rewrite Ht, Hs.
    apply (startswith_lower status "running") in Hrun.
    change (lower "running") with "running"%string in Hrun. by rewrite Hrun.
Qed.

(** The body of the [try] block raises on the answers described by
    [query_raises], and on no other. *)
Lemma query_raises_spec (l : launch) :
  query_raises l ↔ ∃ e, query_body l = Raise e.
Proof.
  destruct l as [what | code stdout]; simpl; [split; [eauto | done]|].
  destruct (decide (code ∈ [0; 1])) as [Hcode | Hcode].
  2: { rewrite bool_decide_false by done. split; [eauto | intros _; by left]. }
  rewrite bool_decide_true by done.
  destruct stdout as [v |]; simpl; [|split; [eauto | intros _; by right]].
  unfold mbind, result_bind. rewrite listed_py_iter.
  destruct (listed v) as [items |]; [|split; [eauto | intros _; by right]].
  split.
  - intros [Hrej | Hbad]; [done|].
    apply Exists_exists in Hbad as (item & Hin & Hitem).
    exact (collect_running_bad items item [] Hin Hitem).
  - intros [e He]. right. destruct (good_or_bad items) as [Hgood | Hbad]; [|done].
    by rewrite (collect_running_good items [] Hgood) in He.
Qed.

(** What the body returns when it does not raise. *)
Lemma query_body_names (l : launch) (running : list pyval) :
  query_body l = Ok running →
  ∀ name, name ∈ running ↔ reported_running l name.
Proof.
  intros Hbody.
  assert (Hfine : ¬ query_raises l).
  { rewrite query_raises_spec. intros [e He]. by rewrite He in Hbody. }
  destruct l as [what | code stdout]; simpl in Hbody; [done|].
  destruct (bool_decide (code ∈ [0; 1])); [|done].
  destruct stdout as [v |]; simpl in Hbody; [|done].
  unfold mbind, result_bind in Hbody. rewrite listed_py_iter in Hbody.
  destruct (listed v) as [items |] eqn:Hlisted; [|done].
  assert (Hgood : Forall (λ item, ¬ bad_entry item) items).
  { apply not_Exists_bad. intros Hbad. apply Hfine. right. simpl. by rewrite Hlisted. }
  rewrite (collect_running_good items [] Hgood) in Hbody. injection Hbody as <-.
  intros name. rewrite running_name_spec. split.
  - intros (d & status & Hd & Hn & Ht & Hs & Hrun).
    destruct v; try done; simpl in Hlisted; injection Hlisted as <-.
    + apply list_elem_of_fmap in Hd as (? & [=] & _).
    + by exists code, l, d, status.
    + apply list_elem_of_fmap in Hd as (? & [=] & _).
  - intros (code' & items' & d & status & [= -> ->] & Hd & Hn & Ht & Hs & Hrun).
    simpl in Hlisted. injection Hlisted as <-. by exists d, status.
Qed.

(** C8. [get_running_projects] asks the tool once, never raises and
    leaves the file system alone, whatever the tool answers.  When the
    body of its [try] block raises (the tool cannot be run, the exit code
    is neither 0 nor 1, the output cannot be parsed, cannot be gone
    through, or holds an entry that is not an object or that has a name
    and a status that is not a [str]), the result is empty and a warning
    is printed.  For every other answer nothing is printed and the result
    holds exactly the names of the entries whose status, taken as empty
    when the entry has none, starts with "running", letter case ignored;
    an empty object and an empty string are such answers, and give the
    empty result without a warning. *)
Theorem get_running_projects_spec docker (w : World) :
  let answer := docker (events w) ls_query in
  ∃ running said,
    DockerCompose.get_running_projects docker w
    = (Ok running, {| fs := fs w; events := events w ++ Exec ls_query :: said |})
    ∧ (query_raises answer →
         running = [] ∧ ∃ e, said = [Print (running_warning e)])
    ∧ (¬ query_raises answer →
         said = [] ∧ ∀ name, name ∈ running ↔ reported_running answer name)
    ∧ (∀ code v, answer = Exited code (Doc v) → code ∈ [0; 1] →
         v = PDict [] ∨ v = PStr "" → ¬ query_raises answer).
Proof.
  intros answer. rewrite get_running_projects_eval. fold answer.
  assert (Hempty : ∀ code v, answer = Exited code (Doc v) → code ∈ [0; 1] →
                     v = PDict [] ∨ v = PStr "" → ¬ query_raises answer).
  { intros code v -> Hcode Hv [Hrej | Hbad]; [done|].
    destruct Hv as [-> | ->]; simpl in Hbad; by apply Exists_nil in Hbad. }
  destruct (query_body answer) as [running | e] eqn:Hbody.
  - exists running, []. split; [done|]. split; [|split; [|exact Hempty]].
    + intros [e He]%query_raises_spec. by rewrite He in Hbody.
    + intros _. split; [done|]. by apply query_body_names.
  - exists [], [Print (running_warning e)]. split; [done|].
    split; [|split; [|exact Hempty]].
    + intros _. split; [done | by exists e].
    + intros Hnot. destruct Hnot. apply query_raises_spec. by exists e.
Qed.

(** The claim as it was worded, a warning on any malformed output, fails
    on an empty JSON object: it is no listing, yet no warning is
    printed. *)
Lemma empty_object_gives_no_warning :
  let w := Examples.world_with_data None in
  let end_of_query := DockerCompose.get_running_projects Examples.empty_object_tool w in
  ¬ (is_listing (Examples.empty_object_tool (events w) ls_query) = false →
     end_of_query.1 = Ok []
     ∧ ∃ e, Print (running_warning e) ∈ events end_of_query.2).
Proof.
  intros w end_of_query Hclaim.
  destruct (Hclaim eq_refl) as (_ & e & Hprinted).
  vm_compute in Hprinted. apply list_elem_of_singleton in Hprinted. discriminate.
Qed.

(** On the example listing the names of [a] and [c] are returned. *)
Example get_running_projects_example :
  (DockerCompose.get_running_projects Examples.listing_tool
     (Examples.world_with_data None)).1 = Ok [PStr "a"; PStr "c"].
Proof. reflexivity. Qed.

(* ===================================================================== *)
(** * The store: [load] and [save]                                        *)
(* ===================================================================== *)

Section Load.

Context {T : Type} (cls : dataclass T).
Hypothesis cls_ok : is_dataclass cls = true.

(** A missing file: the defaults, nothing printed, nothing opened. *)
Lemma load_missing (path : option Path) (w : World) :
  resolve (fs w) (default (DEFAULT_PATH cls) path) = None →
  CaptainFile.load cls path w = (Ok (init cls []), w).
Proof.
  intros Hres. unfold CaptainFile.load, CaptainFile._ensure_dataclass, path_exists.
  rewrite cls_ok. run. rewrite Hres. simpl. by destruct w.
Qed.

(** A file the parser rejects, or a directory: a warning and the defaults. *)
Lemma load_corrupt (path : option Path) (w : World) :
  let p := default (DEFAULT_PATH cls) path in
  (resolve (fs w) p = Some (File Corrupt) ∨ ∃ m, resolve (fs w) p = Some (Dir m)) →
  ∃ e, CaptainFile.load cls path w
       = (Ok (init cls []),
          {| fs := fs w;
             events := events w ++ [Open p "r"; Print (parse_warning p e)] |}).
Proof.
  intros p Hres.
  unfold CaptainFile.load, CaptainFile._ensure_dataclass, CaptainFile.read_yaml,
    path_exists.
  rewrite cls_ok. subst p. run.
  destruct Hres as [Hres | [m Hres]]; rewrite !Hres; run; rewrite !Hres; run;
    eexists; rewrite <- ?app_assoc; reflexivity.
Qed.

(** A document that is a mapping: the recognized fields are taken from
    it, every other key is dropped, and a field the mapping lacks gets
    its default (which is how [init] fills what its argument lacks). *)
Lemma load_mapping (path : option Path) (w : World) (d : list (string * pyval)) :
  let p := default (DEFAULT_PATH cls) path in
  resolve (fs w) p = Some (File (Doc (PDict d))) →
  CaptainFile.load cls path w
  = (Ok (init cls (filter (λ kv, kv.1 ∈ fields cls) d)),
     {| fs := fs w; events := events w ++ [Open p "r"] |}).
Proof.
  intros p Hres.
  unfold CaptainFile.load, CaptainFile._ensure_dataclass, CaptainFile.read_yaml,
    path_exists.
  rewrite cls_ok. subst p. run. rewrite !Hres. run. rewrite ?Hres. run.
  unfold py_or. destruct d; simpl; done.
Qed.

(** A document that is empty or holds a false value counts as the empty
    mapping. *)
Lemma load_falsy (path : option Path) (w : World) (v : pyval) :
  let p := default (DEFAULT_PATH cls) path in
  resolve (fs w) p = Some (File (Doc v)) → truthy v = false →
  CaptainFile.load cls path w
  = (Ok (init cls []), {| fs := fs w; events := events w ++ [Open p "r"] |}).
Proof.
  intros p Hres Hv.
  unfold CaptainFile.load, CaptainFile._ensure_dataclass, CaptainFile.read_yaml,
    path_exists.
  rewrite cls_ok. subst p. run. rewrite !Hres. run. rewrite ?Hres. run.
  unfold py_or. rewrite Hv. simpl. done.
Qed.

(** Any other document: [data.items()] is outside the [try] block, and
    the [AttributeError] leaves [load]. *)
Lemma load_not_a_mapping (path : option Path) (w : World) (v : pyval) :
  let p := default (DEFAULT_PATH cls) path in
  resolve (fs w) p = Some (File (Doc v)) → truthy v = true → (∀ d, v ≠ PDict d) →
  CaptainFile.load cls path w
  = (Raise (AttributeError "items"),
     {| fs := fs w; events := events w ++ [Open p "r"] |}).
Proof.
  intros p Hres Hv Hnot.
  unfold CaptainFile.load, CaptainFile._ensure_dataclass, CaptainFile.read_yaml,
    path_exists.
  rewrite cls_ok. subst p. run. rewrite !Hres. run. rewrite ?Hres. run.
  unfold py_or. rewrite Hv. destruct v; simpl; try done. by destruct (Hnot d).
Qed.

(** [load] never changes the file system, and only adds to what was done. *)
Lemma load_fs (path : option Path) (w : World) :
  fs (CaptainFile.load cls path w).2 = fs w.
Proof.
  set (p := default (DEFAULT_PATH cls) path).
  destruct (resolve (fs w) p) as [[[v |] | m] |] eqn:Hres.
  - destruct (truthy v) eqn:Hv.
    + destruct v; try (rewrite (load_not_a_mapping _ _ _ Hres Hv); done).
      by rewrite (load_mapping _ _ _ Hres).
    + by rewrite (load_falsy _ _ _ Hres Hv).
  - destruct (load_corrupt path w) as [e ->]; [by left | done].
  - destruct (load_corrupt path w) as [e ->]; [right; by exists m | done].
  - by rewrite load_missing.
Qed.

(** The one exception that leaves [load]. *)
Lemma load_raises (path : option Path) (w : World) (e : exn) :
  (CaptainFile.load cls path w).1 = Raise e → e = AttributeError "items".
Proof.
  set (p := default (DEFAULT_PATH cls) path).
  destruct (resolve (fs w) p) as [[[v |] | m] |] eqn:Hres.
  - destruct (truthy v) eqn:Hv.
    + destruct v;
        try (rewrite (load_not_a_mapping _ _ _ Hres Hv) by done; by intros [= <-]).
      by rewrite (load_mapping _ _ _ Hres).
    + by rewrite (load_falsy _ _ _ Hres Hv).
  - by destruct (load_corrupt path w) as [e' ->]; [by left|].
  - by destruct (load_corrupt path w) as [e' ->]; [right; by exists m|].
  - by rewrite load_missing.
Qed.

(** All it does is open the file for reading and, at most, print. *)
Lemma load_effects (path : option Path) (w : World) :
  ∃ extra,
    (CaptainFile.load cls path w).2 = {| fs := fs w; events := events w ++ extra |}
    ∧ executions extra = [] ∧ prompts extra = []
    ∧ Forall (λ e, ∀ p, e ≠ Open p "w") extra.
Proof.
  set (p := default (DEFAULT_PATH cls) path).
  destruct (resolve (fs w) p) as [[[v |] | m] |] eqn:Hres.
  - exists [Open p "r"]. split; [|by repeat constructor].
    destruct (truthy v) eqn:Hv.
    + destruct v; try (rewrite (load_not_a_mapping _ _ _ Hres Hv); done).
      by rewrite (load_mapping _ _ _ Hres).
    + by rewrite (load_falsy _ _ _ Hres Hv).
  - destruct (load_corrupt path w) as [e ->]; [by left|].
    eexists. split; [done|]. by repeat constructor.
  - destruct (load_corrupt path w) as [e ->]; [right; by exists m|].
    eexists. split; [done|]. by repeat constructor.
  - rewrite load_missing by done. exists []. rewrite app_nil_r.
    destruct w. by repeat constructor.
Qed.

End Load.

(** ** Writing files *)



Section Save.

Context {T : Type} (cls : dataclass T).
Hypothesis cls_ok : is_dataclass cls = true.




End Save.

(** ** The two records *)


(** C5, at a data file that holds the YAML list [- a]: the file is read
    and parsed, and then [load] raises an [AttributeError] instead of
    returning a record. *)
Lemma load_raises_on_a_list :
  CaptainFile.load (CaptainData_cls Examples.data_dir) None
    (Examples.world_with_data (Some (Doc (PList [PStr "a"]))))
  = (Raise (AttributeError "items"),
     {| fs := Examples.fs_with_data (Some (Doc (PList [PStr "a"])));
        events := [Open (DEFAULT_PATH (CaptainData_cls Examples.data_dir)) "r"] |}).
Proof. reflexivity. Qed.

(** C4, at a preferences record with one [Path] among its recent files:
    [save] prints a warning and leaves the file empty, and [load] then
    returns the defaults, not the record that was saved. *)
Lemma save_load_loses_a_path :
  let cls := CaptainConfig_cls Examples.config_dir in
  let saved_then_loaded :=
    (CaptainFile.save cls Examples.config_with_path None;;
     CaptainFile.load cls None) (Examples.world_with_data None) in
  saved_then_loaded.1
  = Ok {| theme := PStr "light"; auto_update := PBool true; recent_files := PList [] |}
  ∧ saved_then_loaded.1 ≠ Ok Examples.config_with_path
  ∧ printed (events saved_then_loaded.2)
    = [write_warning (DEFAULT_PATH cls) (YAMLError "cannot represent an object")].
Proof. vm_compute. repeat split. discriminate. Qed.

(** With [str]s in place of the [Path]s the same record comes back. *)
Example save_load_keeps_a_str :
  ((CaptainFile.save (CaptainConfig_cls Examples.config_dir)
      Examples.config_with_str None;;
    CaptainFile.load (CaptainConfig_cls Examples.config_dir) None)
     (Examples.world_with_data None)).1
  = Ok Examples.config_with_str.
Proof. reflexivity. Qed.

(* ===================================================================== *)
(** * The commands                                                        *)
(* ===================================================================== *)

Lemma discover_eval (root : Path) (w : World) :
  discover root w = (discover_projects (fs w) root, w).
Proof. unfold discover. run. by destruct (discover_projects _ _), w. Qed.


Lemma dict_get_Some {V} (d : list (string * V)) (k : string) (v : V) :
  dict_get d k = Some v → (k, v) ∈ d.
Proof.
  induction d as [| [k' v'] d IH]; simpl; [done|].
  destruct (decide (k' = k)) as [-> | Hne].
  - intros [= ->]. by left.
  - intros H. right. by apply IH.
Qed.

(** ** [start], [stop], [restart] on a project that is not there *)



(** ** [rally] and [abandon] *)








Lemma stored_active_effects (user_data_dir : Path) (w : World) (names : list string)
    (w1 : World) :
  stored_active user_data_dir w names w1 →
  ∃ extra, w1 = {| fs := fs w; events := events w ++ extra |}
           ∧ executions extra = [] ∧ prompts extra = []
           ∧ Forall (λ e, ∀ p, e ≠ Open p "w") extra.
Proof.
  unfold stored_active. intros Hload.
  destruct (load_effects (CaptainData_cls user_data_dir) eq_refl None w)
    as (extra & Hw & ?). rewrite Hload in Hw. by exists extra.
Qed.




(** The example of the specification, with [x] not discovered: the exit
    code is 1 although the tool is run for the two projects after it; and
    when all are discovered and [b] fails with 7, the exit code is 7. *)
Example rally_example :
  exit_status (rally Examples.data_dir Examples.tool Examples.srv true false
     (Examples.world_with_data (Some (Examples.active_doc ["x"; "b"; "a"]%string)))).1
  = 1
  ∧ exit_status (rally Examples.data_dir Examples.tool Examples.srv true false
     (Examples.world_with_data (Some (Examples.active_doc ["a"; "b"; "a"]%string)))).1
  = 7.
Proof. split; reflexivity. Qed.

(* ===================================================================== *)
(** * Who changes the stored list                                         *)
(* ===================================================================== *)

(** ** Computations that keep the file system *)

Lemma keeps_fs_ret {A} (a : A) : keeps_fs (mret a).
Proof. by intros w. Qed.

Lemma keeps_fs_raise {A} (e : exn) : keeps_fs (raise (A := A) e).
Proof. by intros w. Qed.

Lemma keeps_fs_lift {A} (r : result A) : keeps_fs (lift r).
Proof. by intros w. Qed.

Lemma keeps_fs_emit (e : event) : keeps_fs (emit e).
Proof. by intros w. Qed.

Lemma keeps_fs_get_fs : keeps_fs get_fs.
Proof. by intros w. Qed.

Lemma keeps_fs_bind {A B} (m : M A) (k : A → M B) :
  keeps_fs m → (∀ a, keeps_fs (k a)) → keeps_fs (m ≫= k).
Proof.
  intros Hm Hk w. unfold mbind, M_bind. specialize (Hm w).
  destruct (m w) as [[a | e] w1]; simpl in *; [|done].
  by rewrite Hk.
Qed.

Lemma keeps_fs_try {A} (body : M A) (handler : exn → M A) :
  keeps_fs body → (∀ e, keeps_fs (handler e)) → keeps_fs (try_except body handler).
Proof.
  intros Hb Hh w. unfold try_except. specialize (Hb w).
  destruct (body w) as [[a | e] w1]; simpl in *; [done|].
  destruct e; simpl; try done; by rewrite Hh.
Qed.

Create HintDb keeps_fs.
#[local] Hint Resolve keeps_fs_ret keeps_fs_raise keeps_fs_lift keeps_fs_emit
  keeps_fs_get_fs : keeps_fs.

(** Decomposes a computation along its binds, handlers and branches. *)
Ltac keeps :=
  repeat first
    [ progress intros
    | apply keeps_fs_bind
    | apply keeps_fs_try
    | solve [eauto with keeps_fs]
    | match goal with
      | |- keeps_fs (if ?b then _ else _) => destruct b
      | |- keeps_fs (match ?x with _ => _ end) => destruct x
      end ].

Lemma keeps_fs_print (msg : message) : keeps_fs (console_print msg).
Proof. apply keeps_fs_emit. Qed.

Lemma keeps_fs_rule (msg : message) : keeps_fs (console_rule msg).
Proof. apply keeps_fs_emit. Qed.

#[local] Hint Resolve keeps_fs_print keeps_fs_rule : keeps_fs.

Lemma keeps_fs_load {T} (cls : dataclass T) (path : option Path) :
  keeps_fs (CaptainFile.load cls path).
Proof.
  unfold CaptainFile.load, CaptainFile._ensure_dataclass, CaptainFile.read_yaml.
  keeps.
Qed.

Lemma keeps_fs_sh_call docker (inv : invocation) :
  keeps_fs (DockerCompose.sh_call docker inv).
Proof.
  intros w. unfold DockerCompose.sh_call.
  destruct (docker _ _); [done|]. by destruct (bool_decide _).
Qed.

#[local] Hint Resolve keeps_fs_load keeps_fs_sh_call : keeps_fs.

Lemma keeps_fs_get_running_projects docker :
  keeps_fs (DockerCompose.get_running_projects docker).
Proof. unfold DockerCompose.get_running_projects. keeps. Qed.

Lemma keeps_fs_docker_compose_run docker (compose_file : Path) (action : string)
    (kw : list (string * pyval)) :
  keeps_fs (DockerCompose._docker_compose_run docker compose_file action kw).
Proof. unfold DockerCompose._docker_compose_run. keeps. Qed.

Lemma keeps_fs_discover (root : Path) : keeps_fs (discover root).
Proof. unfold discover. keeps. Qed.

#[local] Hint Resolve keeps_fs_get_running_projects keeps_fs_docker_compose_run
  keeps_fs_discover : keeps_fs.



(** ** [manage] *)

Lemma existsb_is_str (n : string) (active : list string) :
  existsb (is_str n) (PStr <$> active) = bool_decide (n ∈ active).
Proof.
  induction active as [| a active IH]; [done|].
  rewrite fmap_cons. simpl existsb. rewrite IH. simpl.
  destruct (decide (a = n)) as [-> | Hne].
  - rewrite (bool_decide_true (n = n)) by done.
    by rewrite (bool_decide_true (n ∈ n :: active)) by left.
  - rewrite (bool_decide_false (a = n)) by done. simpl.
    apply bool_decide_ext. rewrite elem_of_cons.
    split; [by right | intros [-> | ?]; done].
Qed.

Lemma py_contains_list (n : string) (active : list string) :
  py_contains (PList (PStr <$> active)) n = Ok (bool_decide (n ∈ active)).
Proof. simpl. by rewrite existsb_is_str. Qed.

Lemma manage_choices_eval (names active : list string) :
  mapM (M := result)
       (λ n, is_active ← py_contains (PList (PStr <$> active)) n;
             Ok {| title := n; value := n; checked := is_active |}) names
  = Ok ((λ n, {| title := n; value := n; checked := bool_decide (n ∈ active) |})
          <$> names).
Proof.
  induction names as [| n names IH]; [done|].
  simpl mapM. simpl in IH. rewrite IH. simpl. by rewrite existsb_is_str.
Qed.

Lemma ticked_values (ticked : string → bool) (names active : list string) :
  value <$> filter (λ c, ticked (value c) = true)
              ((λ n, {| title := n; value := n; checked := bool_decide (n ∈ active) |})
                 <$> names)
  = filter (λ n, ticked n = true) names.
Proof.
  induction names as [| n names IH]; [done|].
  rewrite fmap_cons, !filter_cons. simpl value at 1.
  destruct (decide (ticked n = true)); [rewrite fmap_cons|]; by rewrite IH.
Qed.

Lemma StronglySorted_lt_NoDup (l : list string) :
  StronglySorted str_lt l → NoDup l.
Proof.
  induction 1 as [| a l Hs IH Hall]; constructor; [|done].
  intros Hin. rewrite Forall_forall in Hall. specialize (Hall a Hin).
  apply str_lt_le_ne in Hall as [_ ?]. done.
Qed.



(** [manage] when something is discovered and the stored list is a list
    of names: the prompt is shown, and the answer decides. *)
Lemma manage_eval user_data_dir operator (root : Path) (w w1 : World)
    (projects : list (string * Path)) (active : list string) :
  discover_projects (fs w) root = Ok projects →
  projects ≠ [] →
  stored_active user_data_dir w active w1 →
  let choices := manage_choices projects active in
  let w2 := {| fs := fs w1; events := events w1 ++ [Ask manage_prompt choices] |} in
  manage user_data_dir operator root w
  = match operator choices with
    | None =>
        (Raise (Exit 0),
         {| fs := fs w1; events := events w2 ++ [Print aborted_message] |})
    | Some ticked =>
        let stored := sorted (filter (λ n, ticked n = true) (sorted projects.*1)) in
        (CaptainFile.save (CaptainData_cls user_data_dir)
           {| active_projects := PList (PStr <$> stored) |} None;;
         console_print (saved_message user_data_dir (length stored))) w2
    end.
Proof.
  intros Hdisc Hne Hload choices w2. unfold manage.
  unfold mbind at 1, M_bind at 1. rewrite discover_eval, Hdisc.
  unfold mbind at 1, M_bind at 1. rewrite Hload.
  destruct (sorted projects.*1) as [| n names] eqn:Hnames.
  { exfalso. apply Hne. apply (f_equal length) in Hnames.
    unfold sorted in Hnames. rewrite merge_sort_Permutation in Hnames.
    rewrite length_fmap in Hnames. by destruct projects. }
  cbv beta iota. simpl active_projects.
  unfold mbind at 1, M_bind at 1. unfold lift at 1.
  rewrite manage_choices_eval.
  assert (choices = (λ n0, {| title := n0; value := n0;
                              checked := bool_decide (n0 ∈ active) |})
                      <$> n :: names) as <-.
  { unfold choices, manage_choices. by rewrite Hnames. }
  unfold mbind at 1, M_bind at 1.
  unfold checkbox_ask at 1. unfold mbind at 1, M_bind at 1. unfold emit at 1.
  fold manage_prompt. simpl fs. simpl events. fold w2.
  unfold mret at 1, M_ret at 1.
  destruct (operator choices) as [ticked |]; [|done].
  unfold choices at 1 2, manage_choices. rewrite ticked_values, Hnames. done.
Qed.




(** In the example world: ticking [b] alone replaces the stored list
    [a] by [b]; aborting leaves the file system as it was. *)
Example manage_example :
  let w := Examples.world_with_data (Some (Examples.active_doc ["a"%string])) in
  resolve (fs (manage Examples.data_dir Examples.ticks_b Examples.srv w).2)
          (DEFAULT_PATH (CaptainData_cls Examples.data_dir))
  = Some (File (active_document ["b"%string]))
  ∧ manage Examples.data_dir Examples.aborts Examples.srv w
    = (Raise (Exit 0),
       {| fs := fs w;
          events := [Open (DEFAULT_PATH (CaptainData_cls Examples.data_dir)) "r";
                     Ask manage_prompt (manage_choices Examples.discovered ["a"%string]);
                     Print aborted_message] |}).
Proof. split; reflexivity. Qed.

(** ** [manage] when nothing is discovered *)




(** With a data file that cannot be parsed the reading shows on the
    console: the warning of [load] comes before the notice. *)
Example manage_warns_about_the_data_file :
  printed (events (manage Examples.data_dir Examples.aborts Examples.srv
                     (Examples.world_without_projects Corrupt)).2)
  = [parse_warning (DEFAULT_PATH (CaptainData_cls Examples.data_dir))
       (YAMLError "cannot parse");
     no_projects_found Examples.srv].
Proof. reflexivity. Qed.

(** With a data file that holds a bare list the load raises, and the
    notice is not reached. *)
Example manage_with_a_list_in_the_data_file :
  let end_of_manage :=
    manage Examples.data_dir Examples.aborts Examples.srv
      (Examples.world_without_projects (Doc (PList [PStr "a"]))) in
  end_of_manage.1 = Raise (AttributeError "items")
  ∧ printed (events end_of_manage.2) = [].
Proof. by split. Qed.

(* ===================================================================== *)
(** * Start-up                                                            *)
(* ===================================================================== *)

Lemma mkdir_p_existing (n : node) (p : Path) entries :
  resolve n p = Some (Dir entries) → mkdir_p n p = Ok n.
Proof.
  revert n. induction p as [| c p IH]; intros n; simpl.
  - by intros [= ->].
  - destruct n as [| m]; [done|]. destruct (m !! c) as [child |] eqn:Hc; [|done].
    intros Hres. simpl. rewrite (IH child Hres). run. by rewrite insert_id.
Qed.

(** Lines 36 to 50 do what the specification says of the folder they are
    given: status 1 when it is unset or empty, status 2 when it names
    nothing on disk, and the folder itself when it names a directory. *)
Lemma startup_checks_spec user_config_dir (Path_absolute : string → Path)
    (env_name folder : pyval) (w : World) :
  match folder with
  | PNone | PStr "" =>
      ∃ msg, startup_checks user_config_dir Path_absolute env_name folder w
             = (Raise (SystemExit 1),
                {| fs := fs w; events := events w ++ [Print msg] |})
  | PStr text =>
      match resolve (fs w) (Path_absolute text) with
      | None =>
          ∃ msg, startup_checks user_config_dir Path_absolute env_name folder w
                 = (Raise (SystemExit 2),
                    {| fs := fs w; events := events w ++ [Print msg] |})
      | Some (Dir _) =>
          startup_checks user_config_dir Path_absolute env_name folder w
          = (Ok (Path_absolute text), w)
      | Some (File _) => True
      end
  | _ => True
  end.
Proof.
  destruct folder as [| | | text | | |]; try done.
  - eexists. reflexivity.
  - destruct text as [| c text]; [eexists; reflexivity|].
    unfold startup_checks, path_exists, CaptainFile.mkdir. run.
    destruct (resolve (fs w) (Path_absolute (String c text)))
      as [[content | entries] |] eqn:Hres; [done | |].
    + run. rewrite (mkdir_p_existing _ _ _ Hres). run. by destruct w.
    + eexists. reflexivity.
Qed.

(** The class [CaptainConfig] binds no name [ENVIROMENT]. *)
Lemma CaptainConfig_has_no_ENVIROMENT (user_config_dir : Path) :
  class_getattr (CaptainConfig_cls user_config_dir) "ENVIROMENT"
  = Raise (AttributeError "ENVIROMENT").
Proof. reflexivity. Qed.

(** C3: what the module body of [main.py] does, for every file system,
    every environment and whatever the platform: it raises an
    [AttributeError], at the lookup of [CaptainConfig.ENVIROMENT] when the
    preferences could be loaded.  The environment is never read, neither
    check is reached, no command can proceed, and the status of the
    process is 1 in every case, also when the configured folder does not
    exist. *)
Theorem main_init_raises user_config_dir (environ : gmap string string)
    (Path_absolute : string → Path) (w : World) :
  ∃ what w',
    main_init user_config_dir environ Path_absolute w
    = (Raise (AttributeError what), w')
    ∧ fs w' = fs w
    ∧ exit_status (main_init user_config_dir environ Path_absolute w).1 = 1.
Proof.
  assert (∃ what w',
            main_init user_config_dir environ Path_absolute w
            = (Raise (AttributeError what), w') ∧ fs w' = fs w)
    as (what & w' & Heq & Hfs).
  { unfold main_init. unfold mbind at 1, M_bind at 1.
    pose proof (load_raises (CaptainConfig_cls user_config_dir) eq_refl None w)
      as Hraise.
    pose proof (load_fs (CaptainConfig_cls user_config_dir) eq_refl None w) as Hfs.
    destruct (CaptainFile.load (CaptainConfig_cls user_config_dir) None w)
      as [[captain_config | e] w1]; simpl in Hraise, Hfs.
    - exists "ENVIROMENT"%string, w1. split; [|done].
      unfold mbind at 1, M_bind at 1.
      by rewrite CaptainConfig_has_no_ENVIROMENT.
    - rewrite (Hraise e eq_refl). by exists "items"%string, w1. }
  exists what, w'. by rewrite Heq.
Qed.

(** The same at one input: the variable is set and names a folder that
    does not exist, no preferences file is there, the tool is installed.
    The specification has status 2 here. *)
Example startup_with_a_missing_folder :
  let environ : gmap string string :=
    {[ "DOCKER_CAPTAIN_PROJECTS_FOLDER"%string := "/nowhere"%string ]} in
  let outcome := startup Examples.config_dir environ (λ _, ["nowhere"%string]) true
                   (Examples.world_with_data None) in
  outcome = (Raise (AttributeError "ENVIROMENT"), Examples.world_with_data None)
  ∧ exit_status outcome.1 = 1.
Proof. split; reflexivity. Qed.
(* ===================================================================== *)
(** * More on the compose runner                                          *)
(* ===================================================================== *)



(* ===================================================================== *)
(** * More on discovery and on the commands for one project               *)
(* ===================================================================== *)

(** Where an entry of a discovery result comes from. *)
Lemma discovered_entry (fs : node) (root : Path) (projects : list (string * Path))
    (name : string) (file : Path) :
  discover_projects fs root = Ok projects → (name, file) ∈ projects →
  ∃ entries sub fname,
    resolve fs root = Some (Dir entries)
    ∧ entries !! name = Some (Dir sub)
    ∧ first_recognized sub fname
    ∧ file = joinpath (joinpath root name) fname.
Proof.
  rewrite discover_projects_eval.
  destruct (resolve fs root) as [[c | entries] |] eqn:Hres;
    [done | | by intros [= <-] ?%elem_of_nil].
  intros [= <-] Hin. apply list_elem_of_omap in Hin as (child & Hchild & Hp).
  apply list_elem_of_fmap in Hchild as (n & -> & _).
  apply (project_of_spec _ _ _ _ _ _ Hres) in Hp as (-> & sub & fname & ? & ? & ->).
  exists entries, sub, fname. repeat split; [done..|].
  unfold joinpath. by rewrite <- app_assoc.
Qed.

Lemma dict_get_elem_of {V} (d : list (string * V)) (k : string) (v : V) :
  NoDup d.*1 → (k, v) ∈ d → dict_get d k = Some v.
Proof.
  induction d as [| [k' v'] d IH]; simpl; [by intros _ ?%elem_of_nil|].
  intros Hnd Hin. apply NoDup_cons in Hnd as [Hk' Hnd].
  apply elem_of_cons in Hin as [[= <- <-] | Hin]; [by rewrite decide_True|].
  destruct (decide (k' = k)) as [-> | Hne]; [|by apply IH].
  exfalso. apply Hk'. apply list_elem_of_fmap. by exists (k, v).
Qed.

(** X2. Every entry of a discovery result is usable as it stands: the
    compose file is a regular file on disk with one of the four recognized
    names, it lies directly in a directory of the root that bears the
    project's name, and looking the name up in the result gives that
    file. *)
Theorem discovered_files (fs : node) (root : Path) (projects : list (string * Path))
    (name : string) (file : Path) :
  discover_projects fs root = Ok projects →
  (name, file) ∈ projects →
  is_file fs file = true
  ∧ is_dir fs (path_parent file) = true
  ∧ path_parent (path_parent file) = root
  ∧ path_name (path_parent file) = name
  ∧ path_name file ∈ COMPOSE_FILENAMES
  ∧ dict_get projects name = Some file.
Proof.
  intros Hdisc Hin.
  destruct (discovered_entry _ _ _ _ _ Hdisc Hin)
    as (entries & sub & fname & Hroot & Hname & (i & Hi & [c Hc] & _) & ->).
  rewrite !path_parent_joinpath, !path_name_joinpath.
  assert (Hsub : resolve fs (joinpath root name) = Some (Dir sub))
    by (by rewrite (resolve_child _ _ _ _ Hroot)).
  repeat split.
  - unfold is_file. by rewrite (resolve_child _ _ _ _ Hsub), Hc.
  - unfold is_dir. by rewrite Hsub.
  - apply list_elem_of_lookup. by exists i.
  - apply dict_get_elem_of; [|done].
    apply StronglySorted_lt_NoDup. by apply (discover_projects_sorted fs root).
Qed.

Lemma discovered_files_witness :
  let fs := Examples.fs_with_data None in
  let file := ["srv"; "b"; "docker-compose.yml"]%string in
  (discover_projects fs Examples.srv = Ok Examples.discovered
   ∧ ("b"%string, file) ∈ Examples.discovered)
  ∧ is_file fs file = true
  ∧ is_dir fs (path_parent file) = true
  ∧ path_parent (path_parent file) = Examples.srv
  ∧ path_name (path_parent file) = "b"%string
  ∧ path_name file ∈ COMPOSE_FILENAMES
  ∧ dict_get Examples.discovered "b" = Some file.
Proof.
  intros fs file.
  assert (H1 : discover_projects fs Examples.srv = Ok Examples.discovered)
    by reflexivity.
  assert (H2 : ("b"%string, file) ∈ Examples.discovered) by (right; left).
  split; [by split|].
  exact (discovered_files fs Examples.srv Examples.discovered "b" file H1 H2).
Defined.

Lemma compose_run_reported docker (compose_file : Path) (action : string)
    (kw : list (string * pyval)) (w : World) :
  dict_get kw "file" = None →
  dict_get kw "_fg" = None →
  dict_get kw "_ok_code" = None →
  let inv := compose_call action compose_file kw in
  let history := events w ++ [Rule (banner action compose_file)] in
  ∃ line,
    DockerCompose._docker_compose_run docker compose_file action kw w
    = (Ok (reported (docker history inv)),
       {| fs := fs w; events := history ++ [Exec inv; Print line] |}).
Proof.
  intros Hfile Hfg Hkw inv history. rewrite docker_compose_run_eval. fold inv history.
  rewrite pass_kwargs_clear by (by repeat constructor).
  destruct (docker history inv) as [what | code stdout]; [by eexists|].
  unfold inv, compose_call. simpl kwargs. rewrite ok_codes_default by done.
  destruct (decide (code = 0)) as [-> | Hne].
  - rewrite bool_decide_true by (by apply list_elem_of_singleton). by eexists.
  - rewrite bool_decide_false by (by rewrite list_elem_of_singleton). by eexists.
Qed.

(** X3. [start], [stop] and [restart] on a project that is discovered:
    the command prints the banner with the verb and the project's name,
    runs the tool once, on the project's compose file with the options of
    the command line, prints one closing line and ends with the tool's
    exit code, or with 1 when the tool cannot be run.  It does not open
    the data file, and the file system is left as it was. *)
Theorem known_project_runs docker (root : Path) (project : string)
    (detach remove_orphans : bool) (cmd : M unit) (verb : string)
    (kw : list (string * pyval)) (w : World)
    (projects : list (string * Path)) (compose_file : Path) :
  (cmd, verb, kw) ∈ single_commands docker root project detach remove_orphans →
  discover_projects (fs w) root = Ok projects →
  dict_get projects project = Some compose_file →
  let inv := compose_call verb compose_file kw in
  let rule := Rule [Lit "[bold blue]"; Lit (upper verb); Lit " "; Lit project;
                    Lit "[/bold blue]"] in
  ∃ line,
    cmd w
    = (Raise (Exit (reported (docker (events w ++ [rule]) inv))),
       {| fs := fs w; events := (events w ++ [rule]) ++ [Exec inv; Print line] |}).
Proof.
  intros Hcmd Hdisc Hget inv rule.
  assert (Hname : path_name (path_parent compose_file) = project).
  { destruct (discovered_entry _ _ _ _ _ Hdisc (dict_get_Some _ _ _ Hget))
      as (? & ? & fname & _ & _ & _ & ->).
    by rewrite path_parent_joinpath, path_name_joinpath. }
  assert (Hrule : rule = Rule (banner verb compose_file))
    by (unfold rule, banner; by rewrite Hname).
  assert (Hkw : Forall (λ k, dict_get kw k = None) ["file"; "_fg"; "_ok_code"]%string).
  { unfold single_commands in Hcmd. rewrite !elem_of_cons in Hcmd.
    destruct Hcmd as [[= _ _ ->] | [[= _ _ ->] | [[= _ _ ->] | []%elem_of_nil]]];
      by repeat constructor. }
  apply Forall_cons in Hkw as [Hfile Hkw]. apply Forall_cons in Hkw as [Hfg Hkw].
  apply Forall_cons in Hkw as [Hkw _].
  destruct (compose_run_reported docker compose_file verb kw w Hfile Hfg Hkw)
    as [line Hrun].
  exists line. rewrite Hrule. fold inv in Hrun.
  unfold single_commands in Hcmd. rewrite !elem_of_cons in Hcmd.
  destruct Hcmd as [[= -> -> ->] | [[= -> -> ->] | [[= -> -> ->] | []%elem_of_nil]]].
  - unfold start, _require_project_exists.
    unfold mbind at 1, M_bind at 1. rewrite discover_eval, Hdisc, Hget.
    unfold mbind at 1, M_bind at 1. unfold mret at 1, M_ret at 1.
    unfold mbind at 1, M_bind at 1.
    rewrite (verbs_eval docker "up" (DockerCompose.up docker))
      by (unfold verbs; left).
    rewrite pass_kwargs_clear by (by repeat constructor). by rewrite Hrun.
  - unfold stop, _require_project_exists.
    unfold mbind at 1, M_bind at 1. rewrite discover_eval, Hdisc, Hget.
    unfold mbind at 1, M_bind at 1. unfold mret at 1, M_ret at 1.
    unfold mbind at 1, M_bind at 1.
    rewrite (verbs_eval docker "down" (DockerCompose.down docker))
      by (unfold verbs; right; left).
    rewrite pass_kwargs_clear by (by repeat constructor). by rewrite Hrun.
  - unfold restart, _require_project_exists.
    unfold mbind at 1, M_bind at 1. rewrite discover_eval, Hdisc, Hget.
    unfold mbind at 1, M_bind at 1. unfold mret at 1, M_ret at 1.
    unfold mbind at 1, M_bind at 1.
    rewrite (verbs_eval docker "restart" (DockerCompose.restart docker))
      by (unfold verbs; right; right; left).
    rewrite pass_kwargs_clear by (by repeat constructor). by rewrite Hrun.
Qed.

Lemma known_project_runs_witness :
  let w := Examples.world_with_data None in
  let compose_file := ["srv"; "b"; "docker-compose.yml"]%string in
  let kw := [("detach", PBool true); ("remove_orphans", PBool false)]%string in
  let cmd := start Examples.tool Examples.srv "b" true false in
  let inv := compose_call "up" compose_file kw in
  let rule := Rule [Lit "[bold blue]"; Lit (upper "up"); Lit " "; Lit "b";
                    Lit "[/bold blue]"] in
  ((cmd, "up"%string, kw) ∈ single_commands Examples.tool Examples.srv "b" true false
   ∧ discover_projects (fs w) Examples.srv = Ok Examples.discovered
   ∧ dict_get Examples.discovered "b" = Some compose_file)
  ∧ ∃ line,
      cmd w
      = (Raise (Exit (reported (Examples.tool (events w ++ [rule]) inv))),
         {| fs := fs w; events := (events w ++ [rule]) ++ [Exec inv; Print line] |}).
Proof.
  intros w compose_file kw cmd inv rule.
  assert (H1 : (cmd, "up"%string, kw)
               ∈ single_commands Examples.tool Examples.srv "b" true false) by left.
  assert (H2 : discover_projects (fs w) Examples.srv = Ok Examples.discovered)
    by reflexivity.
  assert (H3 : dict_get Examples.discovered "b" = Some compose_file) by reflexivity.
  split; [by repeat split|].
  exact (known_project_runs Examples.tool Examples.srv "b" true false cmd "up" kw w
           Examples.discovered compose_file H1 H2 H3).
Defined.

(* ===================================================================== *)
(** * The command [list]                                                  *)
(* ===================================================================== *)

Lemma list_rows_eval (verbose : bool) (active : list string) (running : list pyval)
    (projects : list (string * Path)) :
  mapM (M := result)
       (λ item : string * Path,
          is_active ← py_contains (PList (PStr <$> active)) item.1;
          let is_running := existsb (is_str item.1) running in
          Ok ([[Lit item.1]; tick is_active; tick is_running]
              ++ if verbose then [[Val (PPath item.2)]] else []))
       projects
  = Ok (table_row verbose active running <$> projects).
Proof.
  induction projects as [| item projects IH]; [done|].
  simpl mapM. simpl in IH. rewrite IH. simpl. by rewrite existsb_is_str.
Qed.

Lemma is_str_elem_of (name : string) (running : list pyval) :
  existsb (is_str name) running = true ↔ PStr name ∈ running.
Proof.
  rewrite existsb_exists. split.
  - intros (v & Hin & Hv). destruct v; simpl in Hv; try done.
    apply bool_decide_eq_true in Hv as ->. by apply list_elem_of_In.
  - intros Hin. exists (PStr name). split; [by apply list_elem_of_In|].
    simpl. by apply bool_decide_eq_true.
Qed.

(** What [list] does once the projects and the stored names are known. *)
Lemma list_eval user_data_dir docker (root : Path) (verbose : bool) (w w1 : World)
    (projects : list (string * Path)) (active : list string) :
  discover_projects (fs w) root = Ok projects →
  stored_active user_data_dir w active w1 →
  list_ user_data_dir docker root verbose w
  = match DockerCompose.get_running_projects docker w1 with
    | (Ok running, w2) =>
        (Ok tt,
         {| fs := fs w2;
            events := events w2
                      ++ [PrintTable (table_title root) (table_columns verbose)
                            (table_row verbose active running <$> projects)] |})
    | (Raise e, w2) => (Raise e, w2)
    end.
Proof.
  intros Hdisc Hload. unfold list_.
  unfold mbind at 1, M_bind at 1. rewrite discover_eval, Hdisc.
  unfold mbind at 1, M_bind at 1. rewrite Hload.
  unfold mbind at 1, M_bind at 1.
  destruct (DockerCompose.get_running_projects docker w1) as [[running | e] w2];
    [|done].
  simpl active_projects. cbv zeta.
  unfold mbind at 1, M_bind at 1. unfold lift at 1.
  pose proof (list_rows_eval verbose active running projects) as Hrows.
  simpl in Hrows. simpl mapM. rewrite Hrows. done.
Qed.

(** X4. [list], with the projects discovered and a list of names stored:
    it asks the tool once for the running projects and prints one table,
    with one row per discovered project in the order of discovery (so by
    name), ticked as active when the name is stored and as running when
    the name is among those the status query returned, and with the
    compose file as a fourth column exactly when [verbose] is set.  Stored
    names that are not discovered get no row.  It returns normally, and
    the file system is left as it was. *)
Theorem list_table user_data_dir docker (root : Path) (verbose : bool)
    (w w1 : World) (projects : list (string * Path)) (active : list string) :
  discover_projects (fs w) root = Ok projects →
  stored_active user_data_dir w active w1 →
  ∃ running asked,
    DockerCompose.get_running_projects docker w1
    = (Ok running, {| fs := fs w; events := events w1 ++ asked |})
    ∧ executions asked = [ls_query]
    ∧ list_ user_data_dir docker root verbose w
      = (Ok tt,
         {| fs := fs w;
            events := events w1 ++ asked
                      ++ [PrintTable (table_title root) (table_columns verbose)
                            (table_row verbose active running <$> projects)] |})
    ∧ (∀ name, existsb (is_str name) running = true ↔ PStr name ∈ running).
Proof.
  intros Hdisc Hload.
  rewrite (list_eval _ _ _ _ _ _ _ _ Hdisc Hload).
  destruct (stored_active_effects _ _ _ _ Hload) as (loaded & -> & _).
  rewrite get_running_projects_eval. simpl fs. simpl events.
  destruct (query_body _) as [running | e].
  - exists running, [Exec ls_query]. cbn [fs events]. rewrite <- !app_assoc.
    split; [done|]. split; [done|]. split; [done|]. intros name. apply is_str_elem_of.
  - exists [], [Exec ls_query; Print (running_warning e)]. cbn [fs events].
    rewrite <- !app_assoc.
    split; [done|]. split; [done|]. split; [done|]. intros name. apply is_str_elem_of.
Qed.

Lemma list_table_witness :
  let w := Examples.world_with_data (Some (Examples.active_doc ["a"; "x"]%string)) in
  let w1 := {| fs := fs w;
               events := [Open (DEFAULT_PATH (CaptainData_cls Examples.data_dir)) "r"] |} in
  let active := ["a"; "x"]%string in
  (discover_projects (fs w) Examples.srv = Ok Examples.discovered
   ∧ stored_active Examples.data_dir w active w1)
  ∧ ∃ running asked,
      DockerCompose.get_running_projects Examples.listing_tool w1
      = (Ok running, {| fs := fs w; events := events w1 ++ asked |})
      ∧ executions asked = [ls_query]
      ∧ list_ Examples.data_dir Examples.listing_tool Examples.srv true w
        = (Ok tt,
           {| fs := fs w;
              events := events w1 ++ asked
                        ++ [PrintTable (table_title Examples.srv) (table_columns true)
                              (table_row true active running <$> Examples.discovered)] |})
      ∧ (∀ name, existsb (is_str name) running = true ↔ PStr name ∈ running).
Proof.
  intros w w1 active.
  assert (H1 : discover_projects (fs w) Examples.srv = Ok Examples.discovered)
    by reflexivity.
  assert (H2 : stored_active Examples.data_dir w active w1) by reflexivity.
  split; [by split|].
  exact (list_table Examples.data_dir Examples.listing_tool Examples.srv true
           w w1 Examples.discovered active H1 H2).
Defined.

(** In the example world: [a] is stored and running, [b] is neither. *)
Example list_example :
  printed (events (list_ Examples.data_dir Examples.listing_tool Examples.srv false
    (Examples.world_with_data (Some (Examples.active_doc ["a"; "x"]%string)))).2) = []
  ∧ (list_ Examples.data_dir Examples.listing_tool Examples.srv false
       (Examples.world_with_data (Some (Examples.active_doc ["a"; "x"]%string)))).1
    = Ok tt.
Proof. split; reflexivity. Qed.




(* ===================================================================== *)
(** * More on the status query                                            *)
(* ===================================================================== *)

(** X6. The status query on an accepted exit code and output that is a
    list.  If no entry is bad (every entry is an object, and an object
    with a name has a [str] status or none), the result is, in the order
    of the listing and with repetitions, the names of the entries that
    have a non-empty name and a status starting with "running" once
    lowered; entries without a name are passed over without a look at
    their status, and nothing is printed.  If some entry is bad, whatever
    the entries before it, the result is empty and the warning is
    printed. *)
Theorem running_entries docker (w : World) (code : Z) (items : list pyval) :
  docker (events w) ls_query = Exited code (Doc (PList items)) →
  code ∈ [0; 1] →
  (Forall (λ item, ¬ bad_entry item) items →
     DockerCompose.get_running_projects docker w
     = (Ok (omap running_name items),
        {| fs := fs w; events := events w ++ [Exec ls_query] |}))
  ∧ (Exists bad_entry items →
       ∃ e, DockerCompose.get_running_projects docker w
            = (Ok [],
               {| fs := fs w;
                  events := events w ++ [Exec ls_query; Print (running_warning e)] |})).
Proof.
  intros Hrun Hcode. rewrite get_running_projects_eval, Hrun. simpl.
  rewrite bool_decide_true by done. run. split.
  - intros Hgood. by rewrite (collect_running_good items [] Hgood).
  - intros Hbad. apply Exists_exists in Hbad as (item & Hin & Hitem).
    destruct (collect_running_bad items item [] Hin Hitem)
      as [e ->].
    by exists e.
Qed.

Lemma running_entries_witness :
  let w := Examples.world_with_data None in
  let items :=
    [PDict [("Name", PStr "a"); ("Status", PStr "running(2)")];
     PDict [("Name", PStr "b"); ("Status", PStr "exited(1)")];
     PDict [("Name", PStr "c"); ("Status", PStr "Running(1)")]]%string in
  (Examples.listing_tool (events w) ls_query = Exited 0 (Doc (PList items))
   ∧ 0 ∈ [0; 1])
  ∧ (Forall (λ item, ¬ bad_entry item) items →
       DockerCompose.get_running_projects Examples.listing_tool w
       = (Ok (omap running_name items),
          {| fs := fs w; events := events w ++ [Exec ls_query] |}))
  ∧ (Exists bad_entry items →
       ∃ e, DockerCompose.get_running_projects Examples.listing_tool w
            = (Ok [],
               {| fs := fs w;
                  events := events w
                            ++ [Exec ls_query; Print (running_warning e)] |})).
Proof.
  intros w items.
  assert (H1 : Examples.listing_tool (events w) ls_query
               = Exited 0 (Doc (PList items))) by reflexivity.
  assert (H2 : 0 ∈ [0; 1]) by left.
  split; [by split|].
  exact (running_entries Examples.listing_tool w 0 items H1 H2).
Defined.

(* ===================================================================== *)
(** * More on the store                                                   *)
(* ===================================================================== *)



Lemma dict_get_filter (fields : list string) (d : list (string * pyval)) (k : string) :
  k ∈ fields →
  dict_get (filter (λ kv, kv.1 ∈ fields) d) k = dict_get d k.
Proof.
  intros Hk. induction d as [| [k' v] d IH]; [done|].
  rewrite filter_cons. simpl. destruct (decide (k' ∈ fields)) as [Hin | Hnot]; simpl.
  - destruct (decide (k' = k)); [done | exact IH].
  - rewrite decide_False by (by intros ->). exact IH.
Qed.

(** X8. Loading from a file whose document is a mapping, for the two
    records: each field is the value the mapping binds to the field's
    name, taken as it is whatever its type, or the field's default
    ("light", true and the empty list for the preferences, the empty list
    for the data) when the mapping does not bind the name; the other keys
    of the mapping play no part.  Nothing is printed. *)
Theorem load_fields (user_config_dir user_data_dir : Path) (path : Path) (w : World)
    (d : list (string * pyval)) :
  resolve (fs w) path = Some (File (Doc (PDict d))) →
  let read := {| fs := fs w; events := events w ++ [Open path "r"] |} in
  CaptainFile.load (CaptainConfig_cls user_config_dir) (Some path) w
  = (Ok {| theme := default (PStr "light") (dict_get d "theme");
           auto_update := default (PBool true) (dict_get d "auto_update");
           recent_files := default (PList []) (dict_get d "recent_files") |},
     read)
  ∧ CaptainFile.load (CaptainData_cls user_data_dir) (Some path) w
    = (Ok {| active_projects := default (PList []) (dict_get d "active_projects") |},
       read).
Proof.
  intros Hres read. split.
  - rewrite (load_mapping (CaptainConfig_cls user_config_dir) eq_refl (Some path) w d Hres).
    simpl init. rewrite !dict_get_filter; [done | | |].
    + right. right. left.
    + right. left.
    + left.
  - rewrite (load_mapping (CaptainData_cls user_data_dir) eq_refl (Some path) w d Hres).
    simpl init. rewrite dict_get_filter; [done | left].
Qed.

Lemma load_fields_witness :
  let d := [("junk", PInt 3); ("active_projects", PStr "ab"); ("theme", PInt 5)]%string in
  let w := Examples.world_with_data (Some (Doc (PDict d))) in
  let path := DEFAULT_PATH (CaptainData_cls Examples.data_dir) in
  let read := {| fs := fs w; events := events w ++ [Open path "r"] |} in
  resolve (fs w) path = Some (File (Doc (PDict d)))
  ∧ CaptainFile.load (CaptainConfig_cls Examples.config_dir) (Some path) w
    = (Ok {| theme := default (PStr "light") (dict_get d "theme");
             auto_update := default (PBool true) (dict_get d "auto_update");
             recent_files := default (PList []) (dict_get d "recent_files") |},
       read)
  ∧ CaptainFile.load (CaptainData_cls Examples.data_dir) (Some path) w
    = (Ok {| active_projects := default (PList []) (dict_get d "active_projects") |},
       read).
Proof.
  intros d w path read.
  assert (H : resolve (fs w) path = Some (File (Doc (PDict d)))) by reflexivity.
  split; [exact H|].
  exact (load_fields Examples.config_dir Examples.data_dir path w d H).
Defined.

Section Roundtrip.

Context {T : Type} (cls : dataclass T).
Hypothesis cls_ok : is_dataclass cls = true.
Hypothesis init_asdict :
  ∀ self, init cls (filter (λ kv, kv.1 ∈ fields cls) (asdict cls self)) = self.
Hypothesis defaults_representable :
  representable (PDict (asdict cls (init cls []))) = true.


End Roundtrip.





(* ===================================================================== *)
(** * More on [save]                                                      *)
(* ===================================================================== *)

Lemma mkdir_p_blocked (n : node) (q rest : Path) (c : content) :
  resolve n q = Some (File c) → ∃ what, mkdir_p n (q ++ rest) = Raise (OSError what).
Proof.
  revert n. induction q as [| x q IH]; intros n; simpl.
  - intros [= ->]. destruct rest; by eexists.
  - destruct n as [| entries]; [done|].
    destruct (entries !! x) as [child |] eqn:Hx; [|done]. intros Hres. simpl.
    destruct (IH child Hres) as [what ->]. by eexists.
Qed.

(** X11. [save] does raise: when the parent of the path, or any
    directory above it, exists as a regular file, the creation of the
    parent directory, which comes before the [try] block, fails, and the
    [OSError] leaves [save]; nothing is printed, nothing is opened and
    the file system is as it was. *)
Theorem save_raises_when_blocked {T} (cls : dataclass T) (self : T)
    (path : option Path) (w : World) (above rest : Path) (c : content) :
  is_dataclass cls = true →
  path_parent (default (DEFAULT_PATH cls) path) = above ++ rest →
  resolve (fs w) above = Some (File c) →
  ∃ what, CaptainFile.save cls self path w = (Raise (OSError what), w).
Proof.
  intros cls_ok Hparent Hfile.
  unfold CaptainFile.save, CaptainFile._ensure_dataclass, CaptainFile.mkdir.
  rewrite cls_ok. run. rewrite Hparent.
  destruct (mkdir_p_blocked (fs w) above rest c Hfile) as [what ->]. run.
  by exists what.
Qed.

Lemma save_raises_when_blocked_witness :
  let cls := CaptainData_cls ["srv"; "a"; "compose.yaml"; "store"]%string in
  let w := Examples.world_with_data None in
  let self := {| active_projects := PList [] |} in
  (is_dataclass cls = true
   ∧ path_parent (default (DEFAULT_PATH cls) None)
     = ["srv"; "a"; "compose.yaml"]%string ++ ["store"%string]
   ∧ resolve (fs w) ["srv"; "a"; "compose.yaml"]%string = Some (File (Doc PNone)))
  ∧ ∃ what, CaptainFile.save cls self None w = (Raise (OSError what), w).
Proof.
  intros cls w self.
  assert (H1 : is_dataclass cls = true) by reflexivity.
  assert (H2 : path_parent (default (DEFAULT_PATH cls) None)
               = ["srv"; "a"; "compose.yaml"]%string ++ ["store"%string])
    by reflexivity.
  assert (H3 : resolve (fs w) ["srv"; "a"; "compose.yaml"]%string
               = Some (File (Doc PNone))) by reflexivity.
  split; [by repeat split|].
  exact (save_raises_when_blocked cls self None w _ _ _ H1 H2 H3).
Defined.

Lemma resolve_snoc (n : node) (q : Path) (a : string) (x : node) :
  resolve n (q ++ [a]) = Some x →
  ∃ entries, resolve n q = Some (Dir entries) ∧ entries !! a = Some x.
Proof.
  rewrite resolve_app. destruct (resolve n q) as [[c | entries] |]; simpl; try done.
  destruct (entries !! a) eqn:Ha; [|done]. intros [= <-]. by exists entries.
Qed.

Lemma resolve_parent (n : node) (p : Path) entries :
  resolve n p = Some (Dir entries) →
  ∃ entries', resolve n (path_parent p) = Some (Dir entries').
Proof.
  destruct (decide (p = [])) as [-> | Hne]; [by exists entries|].
  unfold path_parent. rewrite (app_removelast_last ""%string Hne) at 1.
  intros Hres. apply resolve_snoc in Hres as (entries' & ? & _). by exists entries'.
Qed.

Lemma write_file_on_directory (n : node) (p : Path) (c : content) entries :
  resolve n p = Some (Dir entries) → write_file n p c = Raise (OSError "is a directory").
Proof.
  revert n. induction p as [| x p IH]; intros n; simpl.
  - by intros [= ->].
  - destruct n as [| m]; [done|]. destruct (m !! x) as [child |] eqn:Hx; [|done].
    intros Hres. by rewrite (IH child Hres).
Qed.

Lemma save_on_directory {T} (cls : dataclass T) (self : T)
    (path : option Path) (w : World) entries :
  is_dataclass cls = true →
  let p := default (DEFAULT_PATH cls) path in
  resolve (fs w) p = Some (Dir entries) →
  CaptainFile.save cls self path w
  = (Ok tt,
     {| fs := fs w;
        events := events w
                  ++ [Open p "w";
                      Print (write_warning p (OSError "is a directory"))] |}).
Proof.
  intros cls_ok p Hres.
  destruct (resolve_parent _ _ _ Hres) as [entries' Hparent].
  unfold CaptainFile.save, CaptainFile._ensure_dataclass, CaptainFile.mkdir,
    CaptainFile.open_w.
  rewrite cls_ok. subst p. run.
  rewrite (mkdir_p_existing _ _ _ Hparent). run.
  rewrite (write_file_on_directory _ _ _ _ Hres). run.
  by rewrite <- app_assoc.
Qed.

(** X12. When a directory stands where the file should be, [save]
    returns normally: opening the path fails inside the [try] block, the
    warning with the path is printed, and nothing is written; the file
    system is as it was. *)
Theorem save_onto_directory {T} (cls : dataclass T) (self : T)
    (path : option Path) (w : World) entries :
  is_dataclass cls = true →
  let p := default (DEFAULT_PATH cls) path in
  resolve (fs w) p = Some (Dir entries) →
  CaptainFile.save cls self path w
  = (Ok tt,
     {| fs := fs w;
        events := events w
                  ++ [Open p "w";
                      Print (write_warning p (OSError "is a directory"))] |})
  ∧ exit_status (CaptainFile.save cls self path w).1 = 0.
Proof.
  intros cls_ok p Hres.
  by rewrite (save_on_directory cls self path w entries cls_ok Hres).
Qed.

Lemma save_onto_directory_witness :
  let cls := CaptainData_cls ["srv"%string] in
  let w := {| fs := Dir {[ "srv"%string := Dir {[ "data.yaml"%string := Dir ∅ ]} ]};
              events := [] |} in
  let self := {| active_projects := PList [PStr "a"] |} in
  let p := default (DEFAULT_PATH cls) None in
  (is_dataclass cls = true ∧ resolve (fs w) p = Some (Dir ∅))
  ∧ CaptainFile.save cls self None w
    = (Ok tt,
       {| fs := fs w;
          events := events w
                    ++ [Open p "w";
                        Print (write_warning p (OSError "is a directory"))] |})
  ∧ exit_status (CaptainFile.save cls self None w).1 = 0.
Proof.
  intros cls w self p.
  assert (H1 : is_dataclass cls = true) by reflexivity.
  assert (H2 : resolve (fs w) p = Some (Dir ∅)) by reflexivity.
  split; [by split|].
  exact (save_onto_directory cls self None w ∅ H1 H2).
Defined.

(** ** What [save] leaves alone *)

Lemma resolve_file_cons (c0 : content) (b : string) (q : Path) :
  resolve (File c0) (b :: q) = None.
Proof. done. Qed.

(** Making directories neither changes, removes nor creates a regular
    file. *)
Lemma mkdir_p_files (n : node) (p : Path) (n' : node) (q : Path) (c : content) :
  mkdir_p n p = Ok n' →
  resolve n' q = Some (File c) ↔ resolve n q = Some (File c).
Proof.
  revert n n' q. induction p as [| a p IH]; intros n n' q.
  - destruct n; simpl; [done|]. by intros [= <-].
  - destruct n as [| entries]; simpl; [done|].
    destruct (mkdir_p (default (Dir ∅) (entries !! a)) p) as [child' |] eqn:Hmk;
      run; [|done].
    intros [= <-]. destruct q as [| b q]; simpl; [done|].
    destruct (decide (a = b)) as [<- | Hne].
    + rewrite lookup_insert_eq. rewrite (IH _ _ q Hmk).
      destruct (entries !! a) as [child |]; simpl; [done|].
      destruct q; simpl; [done|]. by rewrite lookup_empty.
    + by rewrite lookup_insert_ne.
Qed.

(** Writing a file neither changes, removes nor creates a regular file
    at another path. *)
Lemma write_file_files (n : node) (p : Path) (c0 : content) (n' : node)
    (q : Path) (c : content) :
  write_file n p c0 = Ok n' → q ≠ p →
  resolve n' q = Some (File c) ↔ resolve n q = Some (File c).
Proof.
  revert n n' q. induction p as [| x p IH]; intros n n' q.
  - destruct n; simpl; [|done]. intros [= <-] Hq. by destruct q.
  - destruct n as [| entries]; simpl; [done|].
    destruct (entries !! x) as [child |] eqn:Hx.
    + destruct (write_file child p c0) as [child' |] eqn:Hw; run; [|done].
      intros [= <-] Hq. destruct q as [| b q]; simpl; [done|].
      destruct (decide (x = b)) as [<- | Hne].
      * rewrite lookup_insert_eq, Hx. apply (IH _ _ q Hw). congruence.
      * by rewrite lookup_insert_ne.
    + destruct p; [|done]. intros [= <-] Hq. destruct q as [| b q]; simpl; [done|].
      destruct (decide (x = b)) as [<- | Hne].
      * rewrite lookup_insert_eq, Hx. destruct q; [done|]. done.
      * by rewrite lookup_insert_ne.
Qed.

Lemma changes_only_keeps {A} (p : Path) (m : M A) :
  keeps_fs m → changes_only p m.
Proof. intros Hm w q c _. by rewrite Hm. Qed.

Lemma changes_only_bind {A B} (p : Path) (m : M A) (k : A → M B) :
  changes_only p m → (∀ a, changes_only p (k a)) → changes_only p (m ≫= k).
Proof.
  intros Hm Hk w q c Hq. unfold mbind, M_bind. specialize (Hm w q c Hq).
  destruct (m w) as [[a | e] w1]; simpl in *; [|done].
  by rewrite (Hk a w1 q c Hq).
Qed.

Lemma changes_only_try {A} (p : Path) (body : M A) (handler : exn → M A) :
  changes_only p body → (∀ e, changes_only p (handler e)) →
  changes_only p (try_except body handler).
Proof.
  intros Hb Hh w q c Hq. unfold try_except. specialize (Hb w q c Hq).
  destruct (body w) as [[a | e] w1]; simpl in *; [done|].
  destruct e; simpl; try done; by rewrite (Hh _ w1 q c Hq).
Qed.

Lemma changes_only_mkdir (p parent : Path) : changes_only p (CaptainFile.mkdir parent).
Proof.
  intros w q c _. unfold CaptainFile.mkdir. run.
  destruct (mkdir_p (fs w) parent) as [n' |] eqn:Hmk; run; [|done].
  by apply (mkdir_p_files _ _ _ _ _ Hmk).
Qed.

Lemma changes_only_write (p : Path) (c0 : content) :
  changes_only p (n ← get_fs; n' ← lift (write_file n p c0); set_fs n').
Proof.
  intros w q c Hq. run.
  destruct (write_file (fs w) p c0) as [n' |] eqn:Hw; run; [|done].
  by apply (write_file_files _ _ _ _ _ _ Hw).
Qed.

Lemma changes_only_save {T} (cls : dataclass T) (self : T) (path : option Path) :
  changes_only (default (DEFAULT_PATH cls) path) (CaptainFile.save cls self path).
Proof.
  unfold CaptainFile.save, CaptainFile._ensure_dataclass.
  apply changes_only_bind.
  { destruct (is_dataclass cls); apply changes_only_keeps; by intros w. }
  intros _. apply changes_only_bind; [apply changes_only_mkdir|]. intros _.
  apply changes_only_try.
  - apply changes_only_bind.
    + unfold CaptainFile.open_w. apply changes_only_bind.
      * apply changes_only_keeps, keeps_fs_emit.
      * intros _. apply changes_only_write.
    + intros _. unfold CaptainFile.yaml_safe_dump.
      destruct (representable _); [apply changes_only_write|].
      apply changes_only_keeps, keeps_fs_raise.
  - intros e. apply changes_only_keeps, keeps_fs_print.
Qed.

(** X13. Whatever the record, the path and the state of the file system,
    and however [save] ends, the regular files at every path other than
    the one saved to are after [save] exactly those that were there
    before, with their content: [save] changes, removes and creates no
    other file (the directories it makes hold none). *)
Theorem save_touches_one_file {T} (cls : dataclass T) (self : T)
    (path : option Path) (w : World) (q : Path) (c : content) :
  q ≠ default (DEFAULT_PATH cls) path →
  resolve (fs (CaptainFile.save cls self path w).2) q = Some (File c)
  ↔ resolve (fs w) q = Some (File c).
Proof. intros Hq. by apply changes_only_save. Qed.

Lemma save_touches_one_file_witness :
  let cls := CaptainData_cls Examples.data_dir in
  let w := Examples.world_with_data None in
  let self := {| active_projects := PList [PStr "a"] |} in
  let q := ["srv"; "a"; "compose.yaml"]%string in
  q ≠ default (DEFAULT_PATH cls) None
  ∧ (resolve (fs (CaptainFile.save cls self None w).2) q = Some (File (Doc PNone))
     ↔ resolve (fs w) q = Some (File (Doc PNone))).
Proof.
  intros cls w self q.
  assert (H : q ≠ default (DEFAULT_PATH cls) None) by discriminate.
  split; [exact H|].
  exact (save_touches_one_file cls self None w q (Doc PNone) H).
Defined.

(** X14. [manage], from any world and whatever the person at the prompt
    does: the regular files at every path other than the data file are
    after the command exactly those that were there before.  With the
    other commands, which change nothing, no command of the program ever
    changes a compose file or the preferences file. *)
Theorem manage_touches_one_file user_data_dir operator (root : Path) (w : World)
    (q : Path) (c : content) :
  q ≠ DEFAULT_PATH (CaptainData_cls user_data_dir) →
  resolve (fs (manage user_data_dir operator root w).2) q = Some (File c)
  ↔ resolve (fs w) q = Some (File c).
Proof.
  intros Hq. revert w q c Hq.
  change (changes_only (DEFAULT_PATH (CaptainData_cls user_data_dir))
            (manage user_data_dir operator root)).
  unfold manage.
  apply changes_only_bind; [apply changes_only_keeps, keeps_fs_discover|].
  intros projects.
  apply changes_only_bind; [apply changes_only_keeps, keeps_fs_load|].
  intros captain_data. destruct (sorted projects.*1) as [| n names].
  { apply changes_only_keeps. keeps. }
  apply changes_only_bind; [apply changes_only_keeps, keeps_fs_lift|].
  intros choices.
  apply changes_only_bind.
  { apply changes_only_keeps. unfold checkbox_ask. keeps. }
  intros [answer |]; [|apply changes_only_keeps; keeps].
  apply changes_only_bind; [|intros _; apply changes_only_keeps, keeps_fs_print].
  apply (changes_only_save (CaptainData_cls user_data_dir) _ None).
Qed.

Lemma manage_touches_one_file_witness :
  let w := Examples.world_with_data (Some (Examples.active_doc ["a"%string])) in
  let q := ["srv"; "b"; "docker-compose.yml"]%string in
  q ≠ DEFAULT_PATH (CaptainData_cls Examples.data_dir)
  ∧ (resolve (fs (manage Examples.data_dir Examples.ticks_b Examples.srv w).2) q
     = Some (File (Doc PNone))
     ↔ resolve (fs w) q = Some (File (Doc PNone))).
Proof.
  intros w q.
  assert (H : q ≠ DEFAULT_PATH (CaptainData_cls Examples.data_dir)) by discriminate.
  split; [exact H|].
  exact (manage_touches_one_file Examples.data_dir Examples.ticks_b Examples.srv
           w q (Doc PNone) H).
Defined.

(* ===================================================================== *)
(** * More on the commands                                                *)
(* ===================================================================== *)




(** The stale name of the example is dropped by a [manage] confirmed as
    shown. *)
Example manage_drops_a_stale_name :
  resolve (fs (manage Examples.data_dir
                 (λ _, Some (λ n, bool_decide (n ∈ ["a"; "gone"]%string)))
                 Examples.srv
                 (Examples.world_with_data
                    (Some (Examples.active_doc ["a"; "gone"]%string)))).2)
          (DEFAULT_PATH (CaptainData_cls Examples.data_dir))
  = Some (File (active_document ["a"%string])).
Proof. reflexivity. Qed.

(** X16. [manage] reports success also when nothing was saved.  When a
    directory stands where the data file should be and projects are
    discovered, a confirmed [manage] prints the warning of [load], shows
    the prompt with no entry ticked, prints the warning of [save] and
    then the message "Saved n active project(s)", and returns normally;
    the file system is as it was, so the selection is lost. *)
Theorem manage_reports_saved_when_write_fails user_data_dir operator (root : Path)
    (w : World) (projects : list (string * Path)) (ticked : string → bool) entries :
  let data_path := DEFAULT_PATH (CaptainData_cls user_data_dir) in
  let choices := manage_choices projects [] in
  let stored := sorted (filter (λ n, ticked n = true) (sorted projects.*1)) in
  discover_projects (fs w) root = Ok projects →
  projects ≠ [] →
  resolve (fs w) data_path = Some (Dir entries) →
  operator choices = Some ticked →
  manage user_data_dir operator root w
  = (Ok tt,
     {| fs := fs w;
        events := events w
                  ++ [Open data_path "r";
                      Print (parse_warning data_path (OSError "is a directory"));
                      Ask manage_prompt choices;
                      Open data_path "w";
                      Print (write_warning data_path (OSError "is a directory"));
                      Print (saved_message user_data_dir (length stored))] |})
  ∧ Forall (λ c, checked c = false) choices.
Proof.
  intros data_path choices stored Hdisc Hne Hdir Hop.
  assert (Hload : stored_active user_data_dir w []
            {| fs := fs w;
               events := events w
                 ++ [Open data_path "r";
                     Print (parse_warning data_path (OSError "is a directory"))] |}).
  { unfold stored_active, CaptainFile.load, CaptainFile._ensure_dataclass,
      CaptainFile.read_yaml, path_exists.
    run. fold data_path. rewrite !Hdir. run. rewrite !Hdir. run.
    by rewrite <- app_assoc. }
  split.
  - rewrite (manage_eval user_data_dir operator root w _ projects [] Hdisc Hne Hload).
    fold choices. rewrite Hop. cbv zeta. fold stored.
    unfold mbind, M_bind.
    erewrite (save_on_directory (CaptainData_cls user_data_dir)
                {| active_projects := PList (PStr <$> stored) |} None _ entries eq_refl);
      [|exact Hdir].
    run. fold data_path. by rewrite <- !app_assoc.
  - unfold choices, manage_choices. apply Forall_fmap, Forall_forall.
    intros n _. done.
Qed.

Lemma manage_reports_saved_when_write_fails_witness :
  let user_data_dir : Path := ["store"%string] in
  let data_path := DEFAULT_PATH (CaptainData_cls user_data_dir) in
  let w := {| fs := Dir (list_to_map
                      [("srv"%string, Examples.projects_tree);
                       ("store"%string, Dir {[ "data.yaml"%string := Dir ∅ ]})]);
              events := [] |} in
  let projects := Examples.discovered in
  let ticked := λ n : string, bool_decide (n = "b"%string) in
  let choices := manage_choices projects [] in
  let stored := sorted (filter (λ n, ticked n = true) (sorted projects.*1)) in
  (discover_projects (fs w) Examples.srv = Ok projects
   ∧ projects ≠ []
   ∧ resolve (fs w) data_path = Some (Dir ∅)
   ∧ Examples.ticks_b choices = Some ticked)
  ∧ manage user_data_dir Examples.ticks_b Examples.srv w
    = (Ok tt,
       {| fs := fs w;
          events := events w
                    ++ [Open data_path "r";
                        Print (parse_warning data_path (OSError "is a directory"));
                        Ask manage_prompt choices;
                        Open data_path "w";
                        Print (write_warning data_path (OSError "is a directory"));
                        Print (saved_message user_data_dir (length stored))] |})
  ∧ Forall (λ c, checked c = false) choices.
Proof.
  intros user_data_dir data_path w projects ticked choices stored.
  assert (H1 : discover_projects (fs w) Examples.srv = Ok projects) by reflexivity.
  assert (H2 : projects ≠ []) by discriminate.
  assert (H3 : resolve (fs w) data_path = Some (Dir ∅)) by reflexivity.
  assert (H4 : Examples.ticks_b choices = Some ticked) by reflexivity.
  split; [by repeat split|].
  exact (manage_reports_saved_when_write_fails user_data_dir Examples.ticks_b
           Examples.srv w projects ticked ∅ H1 H2 H3 H4).
Defined.

(** X17. [rally] and [abandon] take every false value in place of the
    list as "no active projects".  When the data record loads and its
    [active_projects] is false (the empty list of a missing or empty data
    file, but also a null, an empty string, 0 or [false] found under the
    key), the command prints the hint to run [manage] and ends with exit
    code 0; the tool is not run and the file system is not changed. *)
Theorem batch_without_active_list user_data_dir docker (root : Path)
    (detach remove_orphans : bool) (cmd : M unit) (run : Path → M Z)
    (w w1 : World) (projects : list (string * Path)) (data : CaptainData) :
  (cmd, run) ∈ batch_commands user_data_dir docker root detach remove_orphans →
  discover_projects (fs w) root = Ok projects →
  CaptainFile.load (CaptainData_cls user_data_dir) None w = (Ok data, w1) →
  truthy (active_projects data) = false →
  cmd w
  = (Raise (Exit 0),
     {| fs := fs w;
        events := events w1 ++ [Print (no_active_projects user_data_dir)] |})
  ∧ executions (events w1) = executions (events w).
Proof.
  intros Hcmd Hdisc Hload Hfalse.
  destruct (load_effects (CaptainData_cls user_data_dir) eq_refl None w)
    as (loaded & Hw1 & Hexec & _).
  rewrite Hload in Hw1. simpl in Hw1. subst w1. split.
  - unfold batch_commands in Hcmd. rewrite !elem_of_cons in Hcmd.
    destruct Hcmd as [[= -> ->] | [[= -> ->] | []%elem_of_nil]].
    + unfold rally. unfold mbind at 1, M_bind at 1. rewrite discover_eval, Hdisc.
      unfold mbind at 1, M_bind at 1. rewrite Hload, Hfalse. done.
    + unfold abandon. unfold mbind at 1, M_bind at 1. rewrite discover_eval, Hdisc.
      unfold mbind at 1, M_bind at 1. rewrite Hload, Hfalse. done.
  - simpl. by rewrite executions_app, Hexec, app_nil_r.
Qed.

Lemma batch_without_active_list_witness :
  let user_data_dir := Examples.data_dir in
  let w := Examples.world_with_data
             (Some (Doc (PDict [("active_projects"%string, PStr "")]))) in
  let w1 := {| fs := fs w;
               events := [Open (DEFAULT_PATH (CaptainData_cls user_data_dir)) "r"] |} in
  let cmd := abandon user_data_dir Examples.tool Examples.srv true in
  let run := λ compose_file, DockerCompose.down Examples.tool compose_file
               [("remove_orphans", PBool true)]%string in
  let data := {| active_projects := PStr "" |} in
  ((cmd, run) ∈ batch_commands user_data_dir Examples.tool Examples.srv false true
   ∧ discover_projects (fs w) Examples.srv = Ok Examples.discovered
   ∧ CaptainFile.load (CaptainData_cls user_data_dir) None w = (Ok data, w1)
   ∧ truthy (active_projects data) = false)
  ∧ cmd w
    = (Raise (Exit 0),
       {| fs := fs w;
          events := events w1 ++ [Print (no_active_projects user_data_dir)] |})
  ∧ executions (events w1) = executions (events w).
Proof.
  intros user_data_dir w w1 cmd run data.
  assert (H1 : (cmd, run) ∈ batch_commands user_data_dir Examples.tool
                               Examples.srv false true) by (right; left).
  assert (H2 : discover_projects (fs w) Examples.srv = Ok Examples.discovered)
    by reflexivity.
  assert (H3 : CaptainFile.load (CaptainData_cls user_data_dir) None w = (Ok data, w1))
    by reflexivity.
  assert (H4 : truthy (active_projects data) = false) by reflexivity.
  split; [by repeat split|].
  exact (batch_without_active_list user_data_dir Examples.tool Examples.srv false true
           cmd run w w1 Examples.discovered data H1 H2 H3 H4).
Defined.

(** X18. [discover_projects] raises in one situation only: the root
    exists and is not a directory; then the listing of its entries fails
    and the error leaves the function.  On a root that is a directory or
    that does not exist it returns a mapping. *)
Theorem discover_raises_iff (fs : node) (root : Path) :
  (∃ e, discover_projects fs root = Raise e) ↔ ∃ c, resolve fs root = Some (File c).
Proof.
  rewrite discover_projects_eval.
  destruct (resolve fs root) as [[c | entries] |]; split.
  - intros _. by exists c.
  - intros _. by eexists.
  - by intros [e ?].
  - by intros [c ?].
  - by intros [e ?].
  - by intros [c ?].
Qed.

(* ===================================================================== *)
(** * More on start-up                                                    *)
(* ===================================================================== *)

(** X19. The checks of lines 36 to 50, for any value found for the
    folder.  A false value (unset, or the empty string) ends the process
    with status 1 after one message.  A true value is made an absolute
    path: if nothing is at that path the process ends with status 2 after
    one message; if a directory is there the path is the projects folder
    and nothing is printed or changed; if a regular file is there the
    check of existence passes and the creation of the directory raises.
    A true value that is neither a [str] nor a [Path] raises a
    [TypeError]. *)
Theorem startup_checks_cases user_config_dir (Path_absolute : string → Path)
    (env_name folder : pyval) (w : World) :
  let checks := startup_checks user_config_dir Path_absolute env_name folder w in
  (truthy folder = false →
     ∃ msg, checks = (Raise (SystemExit 1),
                      {| fs := fs w; events := events w ++ [Print msg] |}))
  ∧ (∀ p, truthy folder = true → to_absolute Path_absolute folder = Ok p →
       match resolve (fs w) p with
       | None =>
           ∃ msg, checks = (Raise (SystemExit 2),
                            {| fs := fs w; events := events w ++ [Print msg] |})
       | Some (Dir _) => checks = (Ok p, w)
       | Some (File _) => ∃ what, checks = (Raise (OSError what), w)
       end)
  ∧ (∀ e, truthy folder = true → to_absolute Path_absolute folder = Raise e →
       checks = (Raise e, w) ∧ ∃ what, e = TypeError what).
Proof.
  intros checks. unfold checks, startup_checks. split; [|split].
  - intros ->. simpl. by eexists.
  - intros p -> Hp. simpl. run. rewrite Hp. run. unfold path_exists.
    destruct (resolve (fs w) p) as [[c | entries] |] eqn:Hres; simpl.
    + unfold CaptainFile.mkdir. run.
      destruct (mkdir_p_blocked (fs w) p [] c Hres) as [what Hmk].
      rewrite app_nil_r in Hmk. rewrite Hmk. run. by exists what.
    + unfold CaptainFile.mkdir. run. rewrite (mkdir_p_existing _ _ _ Hres). run.
      by destruct w.
    + by eexists.
  - intros e -> He. simpl. run. rewrite He. run. split; [done|].
    destruct folder; simpl in He; try done; injection He as <-; by eexists.
Qed.

(** For a folder given as text: a missing path gives status 2, a
    directory is accepted. *)
Example startup_checks_example :
  let w := Examples.world_with_data None in
  exit_status (startup_checks Examples.config_dir (λ _, ["nowhere"%string])
                 (PStr "NAME") (PStr "/nowhere") w).1 = 2
  ∧ startup_checks Examples.config_dir (λ _, Examples.srv)
      (PStr "NAME") (PStr "/srv") w = (Ok Examples.srv, w)
  ∧ exit_status (startup_checks Examples.config_dir (λ _, Examples.srv)
                   (PStr "NAME") PNone w).1 = 1.
Proof. repeat split. Qed.
